(** * BratExperiment: partitioning a sample into units and allocating
      them to annotators (skills_ml/evaluation/annotators.py)

    A shallow embedding of the [BratExperiment] class.  Python dictionaries
    whose iteration order is observed are insertion-ordered association
    lists ([Dict]); the blob store and the password store are finite maps.
    Methods are computations in a state-and-exception monad over the
    experiment object, so that the mutations a method made before it raised
    are still visible afterwards, as they are in Python. *)

From Stdlib Require Import ZArith String Ascii.
From stdpp Require Import base numbers list strings pretty gmap.

Open Scope string_scope.
Open Scope list_scope.

(** ** Python values *)

Inductive exn : Type :=
| KeyError (key : string)
| ValueError (msg : string)
| FileNotFoundError (path : string).

Inductive result (A : Type) : Type :=
| Ok (a : A)
| Raise (e : exn).
Arguments Ok {A} a.
Arguments Raise {A} e.

Definition newline : string := String (ascii_of_nat 10) "".

(** [old.join(parts)] is [String.concat]; [s.replace(old, new)] replaces
    the non-overlapping occurrences of [old], scanning from the left. *)
Fixpoint replace_go (old new : string) (skip : nat) (s : string) : string :=
  match s with
  | EmptyString => EmptyString
  | String c s' =>
      match skip with
      | S k => replace_go old new k s'
      | O =>
          if String.prefix old s
          then new +:+ replace_go old new (String.length old - 1) s'
          else String c (replace_go old new 0 s')
      end
  end.

Fixpoint replace_empty (new s : string) : string :=
  match s with
  | EmptyString => new
  | String c s' => new +:+ String c (replace_empty new s')
  end.

Definition replace (s old new : string) : string :=
  match old with
  | EmptyString => replace_empty new s
  | String _ _ => replace_go old new 0 s
  end.

(** The truth value of [unit_to_allocate]: [None] and the empty string
    are false. *)
Definition truthy (v : option string) : bool :=
  match v with
  | None => false
  | Some s => negb (bool_decide (s = ""))
  end.

(** ** Insertion-ordered dictionaries with string keys *)

Module Dict.
Section Defs.
Context {V : Type}.

Fixpoint get (k : string) (d : list (string * V)) : option V :=
  match d with
  | [] => None
  | (k', v) :: d' => if decide (k = k') then Some v else get k d'
  end.

Definition contains (k : string) (d : list (string * V)) : bool :=
  match get k d with Some _ => true | None => false end.

(** [d[k] = v]: an existing key keeps its position, a new one goes last. *)
Fixpoint set (k : string) (v : V) (d : list (string * V)) : list (string * V) :=
  match d with
  | [] => [(k, v)]
  | (k', v') :: d' =>
      if decide (k = k') then (k, v) :: d' else (k', v') :: set k v d'
  end.

Definition keys (d : list (string * V)) : list string := d.*1.
Definition values (d : list (string * V)) : list V := d.*2.
End Defs.
End Dict.

(** ** Collaborators that live outside this file *)

(** Modelled from the spec: [JobPosting] (skills_ml.job_postings) and
    [Sample] (skills_ml.algorithms.sampling) are not part of the file.  An
    item is "an opaque text payload plus an external identifier"; a sample
    has a base path, a name, and iterates over its postings in order. *)
Module JobPosting.
Record t : Type := mk { id : string; text : string }.
End JobPosting.

Module Sample.
Record t : Type := mk {
  base_path : string;
  name : string;
  postings : list JobPosting.t
}.
End Sample.

(** Modelled from the spec: [Batch] (skills_utils.iteration) is not part of
    the file.  The spec has it divide the ordered sequence "into fixed-size
    batches", consumed "in original order", where "the last unit may contain
    fewer than unit_size items".  The model is the generator that does this
    in one pass: a group is opened on the next item and closed as soon as
    the number of items it holds equals [limit]; an exhausted input yields
    no further group.  [num] counts the items of the open group [cur]
    (kept in reverse). *)
Section Batch.
Context {A : Type}.

Fixpoint Batch_group (limit : Z) (num : Z) (cur : list A) (l : list A)
  : list (list A) :=
  match l with
  | [] => [rev cur]
  | x :: l' =>
      if (num =? limit)%Z
      then rev cur :: Batch_group limit 1 [x] l'
      else Batch_group limit (num + 1) (x :: cur) l'
  end.

Definition Batch (iterable : list A) (limit : Z) : list (list A) :=
  match iterable with
  | [] => []
  | x :: l' => Batch_group limit 1 [x] l'
  end.
End Batch.

(** ** The experiment object *)

(** The keys of [self.metadata]; a key that was never set is [None]. *)
Record Metadata : Type := mkMetadata {
  md_sample_base_path : option string;
  md_sample_name : option string;
  md_entities_with_shortcuts : option (list (string * string));
  md_minimum_annotations_per_posting : option Z;
  md_max_postings_per_allocation : option Z;
  md_units : option (list (string * list (nat * string)));
  md_allocations : option (list (string * list string))
}.

Definition empty_metadata : Metadata :=
  mkMetadata None None None None None None None.

(** Modelled from the spec: [S3BackedJsonDict] (skills_utils.s3) is not
    part of the file.  Its contract is "set(key, value) (in-memory until
    save())" and "save(): flush all pending writes durably"; "writes are
    only visible to other processes after save()".  [storage] is the
    in-memory dictionary, [saved] the durable copy a new process loads. *)
Record S3BackedJsonDict (T : Type) : Type := mkStore {
  storage : T;
  saved : T
}.
Arguments mkStore {T} storage saved.
Arguments storage {T} s.
Arguments saved {T} s.

Definition save {T} (d : S3BackedJsonDict T) : S3BackedJsonDict T :=
  mkStore (storage d) (storage d).

Definition set_storage {T} (v : T) (d : S3BackedJsonDict T) : S3BackedJsonDict T :=
  mkStore v (saved d).

(** The copies in the blob store and the appends to a worker's history, in
    the order in which the methods perform them.  The experiment object
    carries this trace so that the order of effects within a call can be
    stated; no method reads it. *)
Inductive event : Type :=
| EvCopy (source_key dest_key : string)
| EvRecord (user_name unit_name : string).

Record BratExperiment : Type := mkExperiment {
  experiment_name : string;
  brat_s3_path : string;
  metadata : S3BackedJsonDict Metadata;
  user_pw_store : S3BackedJsonDict (gmap string string);
  s3 : gmap string string;
  events : list event
}.

(** [BratExperiment(experiment_name, brat_s3_path)] on an empty bucket. *)
Definition new_experiment (experiment_name brat_s3_path : string) : BratExperiment :=
  mkExperiment experiment_name brat_s3_path
    (mkStore empty_metadata empty_metadata) (mkStore ∅ ∅) ∅ [].

(** Constructing the object again (another process, or a restart): both
    stores are loaded from their durable copies. *)
Definition reopen (e : BratExperiment) : BratExperiment :=
  mkExperiment (experiment_name e) (brat_s3_path e)
    (mkStore (saved (metadata e)) (saved (metadata e)))
    (mkStore (saved (user_pw_store e)) (saved (user_pw_store e)))
    (s3 e) (events e).

Definition experiment_path (e : BratExperiment) : string :=
  String.concat "/" [brat_s3_path e; experiment_name e].

Definition brat_config_path (e : BratExperiment) : string :=
  String.concat "/" [experiment_path e; "brat_config"].

Definition data_path (e : BratExperiment) : string :=
  String.concat "/" [brat_config_path e; "data"].

Definition unit_path (e : BratExperiment) (unit_name : string) : string :=
  String.concat "/" [data_path e; "." +:+ unit_name].

Definition user_allocations_path (e : BratExperiment) (user_name : string) : string :=
  String.concat "/" [data_path e; "." +:+ user_name].

Definition allocation_path (e : BratExperiment) (user_name unit_name : string) : string :=
  String.concat "/" [user_allocations_path e user_name; unit_name].

(** ** Methods as computations *)

Definition M (A : Type) : Type := BratExperiment → result A * BratExperiment.

Definition ret {A} (a : A) : M A := λ e, (Ok a, e).

Definition raise {A} (x : exn) : M A := λ e, (Raise x, e).

Definition bind {A B} (c : M A) (k : A → M B) : M B :=
  λ e, match c e with
       | (Ok a, e') => k a e'
       | (Raise x, e') => (Raise x, e')
       end.

Definition gets {A} (f : BratExperiment → A) : M A := λ e, (Ok (f e), e).

Definition modify (f : BratExperiment → BratExperiment) : M unit := λ e, (Ok tt, f e).

Notation "'let*' x ':=' c 'in' k" := (bind c (λ x, k))
  (at level 10, x name, c at level 100, k at level 200, only parsing).
Notation "c ';;' k" := (bind c (λ _, k))
  (at level 100, k at level 200, right associativity, only parsing).

Fixpoint for_each {A} (body : A → M unit) (l : list A) : M unit :=
  match l with
  | [] => ret tt
  | x :: l' => body x ;; for_each body l'
  end.

(** [for i, x in enumerate(l)], counting from [i]. *)
Fixpoint for_enumerate {A} (body : nat → A → M unit) (i : nat) (l : list A) : M unit :=
  match l with
  | [] => ret tt
  | x :: l' => body i x ;; for_enumerate body (S i) l'
  end.

(** *** Field updates *)

Definition with_metadata (f : Metadata → Metadata) (e : BratExperiment) : BratExperiment :=
  mkExperiment (experiment_name e) (brat_s3_path e)
    (set_storage (f (storage (metadata e))) (metadata e))
    (user_pw_store e) (s3 e) (events e).

Definition with_s3 (f : gmap string string → gmap string string) (e : BratExperiment)
  : BratExperiment :=
  mkExperiment (experiment_name e) (brat_s3_path e) (metadata e) (user_pw_store e)
    (f (s3 e)) (events e).

Definition log_event (ev : event) (e : BratExperiment) : BratExperiment :=
  mkExperiment (experiment_name e) (brat_s3_path e) (metadata e) (user_pw_store e)
    (s3 e) (events e ++ [ev]).

Definition set_units (v : list (string * list (nat * string))) (m : Metadata) : Metadata :=
  mkMetadata (md_sample_base_path m) (md_sample_name m) (md_entities_with_shortcuts m)
    (md_minimum_annotations_per_posting m) (md_max_postings_per_allocation m)
    (Some v) (md_allocations m).

Definition set_allocations (v : list (string * list string)) (m : Metadata) : Metadata :=
  mkMetadata (md_sample_base_path m) (md_sample_name m) (md_entities_with_shortcuts m)
    (md_minimum_annotations_per_posting m) (md_max_postings_per_allocation m)
    (md_units m) (Some v).

Definition set_configuration (sample : Sample.t) (entities : list (string * string))
    (minimum maximum : Z) (m : Metadata) : Metadata :=
  mkMetadata (Some (Sample.base_path sample)) (Some (Sample.name sample)) (Some entities)
    (Some minimum) (Some maximum) (md_units m) (md_allocations m).

(** *** The metadata store *)

(** [self.metadata[key]] for reading: a missing key raises [KeyError]. *)
Definition metadata_getitem {T} (key : string) (field : Metadata → option T) : M T :=
  λ e, match field (storage (metadata e)) with
       | Some v => (Ok v, e)
       | None => (Raise (KeyError key), e)
       end.

Definition metadata_save : M unit :=
  modify (λ e, mkExperiment (experiment_name e) (brat_s3_path e)
                 (save (metadata e)) (user_pw_store e) (s3 e) (events e)).

(** [self.metadata['units'][unit_name] = []] *)
Definition units_setitem (unit_name : string) (v : list (nat * string)) : M unit :=
  let* units := metadata_getitem "units" md_units in
  modify (with_metadata (set_units (Dict.set unit_name v units))).

(** [self.metadata['units'][unit_name].append(x)] *)
Definition units_append (unit_name : string) (x : nat * string) : M unit :=
  let* units := metadata_getitem "units" md_units in
  match Dict.get unit_name units with
  | Some members =>
      modify (with_metadata (set_units (Dict.set unit_name (members ++ [x]) units)))
  | None => raise (KeyError unit_name)
  end.

(** [self.metadata['allocations'][user_name]] *)
Definition allocations_getitem (user_name : string) : M (list string) :=
  let* allocations := metadata_getitem "allocations" md_allocations in
  match Dict.get user_name allocations with
  | Some user_units => ret user_units
  | None => raise (KeyError user_name)
  end.

(** [self.metadata['allocations'][user_name] = []] *)
Definition allocations_setitem (user_name : string) (v : list string) : M unit :=
  let* allocations := metadata_getitem "allocations" md_allocations in
  modify (with_metadata (set_allocations (Dict.set user_name v allocations))).

(** [self.metadata['allocations'][user_name].append(unit_name)] *)
Definition allocations_append (user_name unit_name : string) : M unit :=
  let* user_units := allocations_getitem user_name in
  allocations_setitem user_name (user_units ++ [unit_name]) ;;
  modify (log_event (EvRecord user_name unit_name)).

(** *** The blob store *)

(** Modelled from the spec: [s3fs.S3FileSystem] is not part of the file.
    The blob store interface is "write(path, bytes)", "list(path_prefix) ->
    sequence[path]" and "copy(src_path, dst_path)" over "'/'-joined
    hierarchical strings".  A path holds bytes or nothing; listing a
    directory gives the paths below it.  A write and a copy of a blob that
    exists succeed: an outage of the store itself is not modelled, and
    nothing is stated about a call in which a copy fails. *)
Definition s3_write (path content : string) : M unit :=
  modify (with_s3 (λ m, <[path := content]> m)).

Definition under (dir path : string) : Prop :=
  String.prefix (dir +:+ "/") path = true.

#[global] Instance under_dec dir path : Decision (under dir path).
Proof. unfold under. apply _. Defined.

Definition s3_ls (dir : string) : M (list string) :=
  gets (λ e, filter (under dir) (map_to_list (s3 e)).*1).

Definition s3_copy (source_key dest_key : string) : M unit :=
  λ e, match s3 e !! source_key with
       | Some content =>
           (Ok tt, log_event (EvCopy source_key dest_key)
                     (with_s3 (λ m, <[dest_key := content]> m) e))
       | None => (Raise (FileNotFoundError source_key), e)
       end.

(** ** [start] *)

Definition entity_lines (entities_with_shortcuts : list (string * string)) : string :=
  String.concat "" (map (λ entry, snd entry +:+ newline) entities_with_shortcuts).

Definition annotation_conf (entities_with_shortcuts : list (string * string)) : string :=
  "[entities]" +:+ newline +:+ entity_lines entities_with_shortcuts
  +:+ "[relations]" +:+ newline +:+ newline +:+ "# none defined"
  +:+ "[attributes]" +:+ newline +:+ newline +:+ "# none defined"
  +:+ "[events]" +:+ newline +:+ newline +:+ "# none defined".

Definition kb_shortcuts_conf (entities_with_shortcuts : list (string * string)) : string :=
  String.concat ""
    (map (λ entry, fst entry +:+ " " +:+ snd entry +:+ newline) entities_with_shortcuts).

Definition visual_conf (entities_with_shortcuts : list (string * string)) : string :=
  "[labels]" +:+ newline +:+ entity_lines entities_with_shortcuts.

(** The body of the loop over the postings of one batch. *)
Definition write_posting (unit_name : string) (posting_key : nat)
    (posting : JobPosting.t) : M unit :=
  units_append unit_name (posting_key, JobPosting.id posting) ;;
  let* outfilename :=
    gets (λ e, String.concat "/" [unit_path e unit_name; pretty posting_key]) in
  s3_write (outfilename +:+ ".txt") (JobPosting.text posting) ;;
  s3_write (outfilename +:+ ".ann") "".

(** ['unit_{}'.format(unit_num)] *)
Definition unit_name_of (unit_num : nat) : string := "unit_" +:+ pretty unit_num.
Arguments unit_name_of : simpl never.

(** The body of the loop over the batches. *)
Definition write_unit (unit_num : nat) (batch_postings : list JobPosting.t) : M unit :=
  let unit_name := unit_name_of unit_num in
  units_setitem unit_name [] ;;
  for_enumerate (write_posting unit_name) 0 batch_postings.

(** [minimum_annotations_per_posting] defaults to 2 and
    [max_postings_per_allocation] to 10. *)
Definition start (sample : Sample.t) (entities_with_shortcuts : list (string * string))
    (minimum_annotations_per_posting max_postings_per_allocation : Z) : M unit :=
  modify (with_metadata
            (set_configuration sample entities_with_shortcuts
               minimum_annotations_per_posting max_postings_per_allocation)) ;;
  modify (with_metadata (set_units [])) ;;
  for_enumerate write_unit 0
    (Batch (Sample.postings sample) max_postings_per_allocation) ;;
  metadata_save ;;
  let* config := gets brat_config_path in
  s3_write (String.concat "/" [config; "annotation.conf"])
    (annotation_conf entities_with_shortcuts) ;;
  s3_write (String.concat "/" [config; "kb_shortcuts.conf"])
    (kb_shortcuts_conf entities_with_shortcuts) ;;
  s3_write (String.concat "/" [config; "visual.conf"])
    (visual_conf entities_with_shortcuts).

(** ** [needs_allocation] *)

Definition needs_allocation (unit_name : string) : M bool :=
  let* allocations := metadata_getitem "allocations" md_allocations in
  let total :=
    length (filter (λ user_units : list string, unit_name ∈ user_units)
              (Dict.values allocations)) in
  let* minimum :=
    metadata_getitem "minimum_annotations_per_posting"
      md_minimum_annotations_per_posting in
  ret (bool_decide (Z.of_nat total < minimum)%Z).

(** ** [add_allocation] *)

(** The first generator: [next] over the unit names the user has not seen
    and that need allocation; [None] stands for [StopIteration], which the
    caller swallows. *)
Fixpoint next_needing (user_name : string) (unit_names : list string) : M (option string) :=
  match unit_names with
  | [] => ret None
  | unit_name :: rest =>
      let* user_units := allocations_getitem user_name in
      if bool_decide (unit_name ∈ user_units) then next_needing user_name rest
      else
        let* needed := needs_allocation unit_name in
        if needed then ret (Some unit_name) else next_needing user_name rest
  end.

(** The second generator: the unit names the user has not seen. *)
Fixpoint next_unseen (user_name : string) (unit_names : list string) : M (option string) :=
  match unit_names with
  | [] => ret None
  | unit_name :: rest =>
      let* user_units := allocations_getitem user_name in
      if bool_decide (unit_name ∈ user_units) then next_unseen user_name rest
      else ret (Some unit_name)
  end.

(** Lines 207 to 218: populate the user's directory, then record. *)
Definition deliver (user_name unit_to_allocate : string) : M string :=
  let* source_dir := gets (λ e, unit_path e unit_to_allocate) in
  let* dest_dir := gets (λ e, allocation_path e user_name unit_to_allocate) in
  let* source_keys := s3_ls source_dir in
  for_each (λ source_key,
              s3_copy source_key (replace source_key source_dir dest_dir))
    source_keys ;;
  allocations_append user_name unit_to_allocate ;;
  ret dest_dir.

(** Lines 174 to 178: the allocations are initialized on first use. *)
Definition initialize_allocations (user_name : string) : M unit :=
  let* initialized :=
    gets (λ e, bool_decide (is_Some (md_allocations (storage (metadata e))))) in
  (if negb initialized then modify (with_metadata (set_allocations [])) else ret tt) ;;
  let* allocations := metadata_getitem "allocations" md_allocations in
  if negb (Dict.contains user_name allocations)
  then allocations_setitem user_name [] else ret tt.

(** Lines 180 to 202: the two searches.  The second one runs when the
    first left [unit_to_allocate] false, and leaves it as it was when it
    finds nothing. *)
Definition choose_unit (user_name : string) : M (option string) :=
  let* units := metadata_getitem "units" md_units in
  let* unit_to_allocate := next_needing user_name (Dict.keys units) in
  if negb (truthy unit_to_allocate)
  then
    let* units := metadata_getitem "units" md_units in
    let* found := next_unseen user_name (Dict.keys units) in
    ret (match found with Some _ => found | None => unit_to_allocate end)
  else ret unit_to_allocate.

Definition add_allocation (user_name : string) : M string :=
  let* known := gets (λ e, bool_decide (is_Some (storage (user_pw_store e) !! user_name))) in
  if negb known
  then raise (ValueError "Username not in user-password store. Please call add_user first")
  else
    initialize_allocations user_name ;;
    let* unit_to_allocate := choose_unit user_name in
    if negb (truthy unit_to_allocate)
    then raise (ValueError "No units left to allocate to user!")
    else deliver user_name (default "" unit_to_allocate).

(** ** [add_user] *)

Definition with_user_pw_store
    (f : S3BackedJsonDict (gmap string string) → S3BackedJsonDict (gmap string string))
    (e : BratExperiment) : BratExperiment :=
  mkExperiment (experiment_name e) (brat_s3_path e) (metadata e)
    (f (user_pw_store e)) (s3 e) (events e).

Definition add_user (username password : string) : M string :=
  let* taken := gets (λ e, bool_decide (is_Some (storage (user_pw_store e) !! username))) in
  if taken
  then raise (ValueError ("User " +:+ username +:+ " already created"))
  else
    modify (with_user_pw_store
              (λ d, set_storage (<[username := password]> (storage d)) d)) ;;
    modify (with_user_pw_store save) ;;
    add_allocation username.

(** ** Notions used to state the properties *)

(** The allocations with the "get or default empty" reading: before the
    first allocation request there are none. *)
Definition allocations_of (e : BratExperiment) : list (string * list string) :=
  default [] (md_allocations (storage (metadata e))).

Definition history (user_name : string) (e : BratExperiment) : list string :=
  default [] (Dict.get user_name (allocations_of e)).

Definition units_of (e : BratExperiment) : list (string * list (nat * string)) :=
  default [] (md_units (storage (metadata e))).

(** The unit names in creation order. *)
Definition unit_names (e : BratExperiment) : list string := Dict.keys (units_of e).

Definition registered (user_name : string) (e : BratExperiment) : Prop :=
  is_Some (storage (user_pw_store e) !! user_name).

(** Coverage of a unit: the number of histories that contain it. *)
Definition coverage (allocations : list (string * list string)) (unit_name : string) : nat :=
  length (filter (λ user_units : list string, unit_name ∈ user_units)
            (Dict.values allocations)).

(** The spec's [needs_more_coverage]: "true iff the count of distinct
    workers whose history contains unit_name is strictly less than
    minimum_coverage". *)
Definition needs_more_coverage (e : BratExperiment) (unit_name : string) : Prop :=
  match md_minimum_annotations_per_posting (storage (metadata e)) with
  | Some minimum => (Z.of_nat (coverage (allocations_of e) unit_name) < minimum)%Z
  | None => False
  end.

#[global] Instance needs_more_coverage_dec e unit_name :
  Decision (needs_more_coverage e unit_name).
Proof.
  unfold needs_more_coverage.
  destruct (md_minimum_annotations_per_posting (storage (metadata e))); apply _.
Defined.

(** [u] is the first element of [names], in list order, that satisfies [P]. *)
Definition first_in_order (P : string → Prop) (names : list string) (u : string) : Prop :=
  ∃ i, names !! i = Some u ∧ P u ∧ ∀ j v, names !! j = Some v → j < i → ¬ P v.

(** An experiment on which [start] has run: the units and the coverage
    target are in the metadata, and no unit has the empty name. *)
Definition started (e : BratExperiment) : Prop :=
  is_Some (md_units (storage (metadata e))) ∧
  is_Some (md_minimum_annotations_per_posting (storage (metadata e))) ∧
  Forall (λ unit_name, unit_name ≠ "") (unit_names e).

(** The calls of the allocation engine, and runs of them. *)
Inductive call : Type :=
| CallAddUser (username password : string)
| CallAddAllocation (user_name : string)
| CallStart (sample : Sample.t) (entities_with_shortcuts : list (string * string))
    (minimum_annotations_per_posting max_postings_per_allocation : Z)
| CallReopen.

Definition run_call (c : call) (e : BratExperiment) : BratExperiment :=
  match c with
  | CallAddUser username password => snd (add_user username password e)
  | CallAddAllocation user_name => snd (add_allocation user_name e)
  | CallStart sample entities minimum maximum =>
      snd (start sample entities minimum maximum e)
  | CallReopen => reopen e
  end.

Definition run_calls (cs : list call) (e : BratExperiment) : BratExperiment :=
  foldl (λ e c, run_call c e) e cs.

(** The state [add_allocation] searches in: the one after lines 174-178. *)
Definition prepared_allocations (user_name : string) (e : BratExperiment)
  : list (string * list string) :=
  if Dict.contains user_name (allocations_of e)
  then allocations_of e
  else Dict.set user_name [] (allocations_of e).

Definition prepared (user_name : string) (e : BratExperiment) : BratExperiment :=
  with_metadata (set_allocations (prepared_allocations user_name e)) e.

(** The blob store after the copies of [deliver], as a fold. *)
Definition copy_all (dest : string → string) (source_keys : list string)
    (m : gmap string string) : gmap string string :=
  foldl (λ m k, match m !! k with Some content => <[dest k := content]> m | None => m end)
    m source_keys.

Definition listing (dir : string) (e : BratExperiment) : list string :=
  filter (under dir) (map_to_list (s3 e)).*1.

(** The state [deliver] leaves. *)
Definition delivered (user_name unit_name : string) (e : BratExperiment) : BratExperiment :=
  let source_dir := unit_path e unit_name in
  let dest_dir := allocation_path e user_name unit_name in
  let dest := λ source_key, replace source_key source_dir dest_dir in
  let source_keys := listing source_dir e in
  mkExperiment (experiment_name e) (brat_s3_path e)
    (set_storage
       (set_allocations
          (Dict.set user_name (history user_name e ++ [unit_name]) (allocations_of e))
          (storage (metadata e)))
       (metadata e))
    (user_pw_store e)
    (copy_all dest source_keys (s3 e))
    (events e ++ map (λ k, EvCopy k (dest k)) source_keys
       ++ [EvRecord user_name unit_name]).

(** What the two searches select when the coverage target is present. *)
Definition selection (user_name : string) (e : BratExperiment) : option string :=
  let first :=
    snd <$> list_find (λ u, (u ∉ history user_name e) ∧ needs_more_coverage e u)
              (unit_names e) in
  if truthy first then first
  else match snd <$> list_find (λ u, u ∉ history user_name e) (unit_names e) with
       | Some u => Some u
       | None => first
       end.

(** The member list of a unit: position within the unit and external id. *)
Fixpoint members_from (posting_key : nat) (batch : list JobPosting.t)
  : list (nat * string) :=
  match batch with
  | [] => []
  | posting :: rest =>
      (posting_key, JobPosting.id posting) :: members_from (S posting_key) rest
  end.

(** The entries the loop over the batches adds, in the order it adds them. *)
Fixpoint unit_entries (unit_num : nat) (batches : list (list JobPosting.t))
  : list (string * list (nat * string)) :=
  match batches with
  | [] => []
  | batch :: rest =>
      (unit_name_of unit_num, members_from 0 batch) :: unit_entries (S unit_num) rest
  end.

Definition with_units_s3 (d : list (string * list (nat * string)))
    (s : gmap string string) (e : BratExperiment) : BratExperiment :=
  mkExperiment (experiment_name e) (brat_s3_path e)
    (set_storage (set_units d (storage (metadata e))) (metadata e))
    (user_pw_store e) s (events e).

(** The state [start] leaves. *)
Definition started_metadata (sample : Sample.t) (entities : list (string * string))
    (minimum maximum : Z) (m : Metadata) : Metadata :=
  set_units (unit_entries 0 (Batch (Sample.postings sample) maximum))
    (set_configuration sample entities minimum maximum m).

(** The state [add_user] hands to [add_allocation]: the password is
    stored and the password store saved (lines 144 and 145). *)
Definition registering (username password : string) (e : BratExperiment)
  : BratExperiment :=
  with_user_pw_store save
    (with_user_pw_store (λ d, set_storage (<[username := password]> (storage d)) d) e).

(** "A worker must exist in workers before it can appear as a key in
    allocations." *)
Definition workers_known (e : BratExperiment) : Prop :=
  ∀ worker, worker ∈ Dict.keys (allocations_of e) → registered worker e.

(** No history holds a unit twice, in memory or in the durable copy. *)
Definition histories_distinct (e : BratExperiment) : Prop :=
  ∀ worker, NoDup (history worker e) ∧ NoDup (history worker (reopen e)).

(** Two readings of the order of events: every history mutation before
    every copy, and every copy before every history mutation. *)
Definition commit_then_copy (evs : list event) : Prop :=
  ∀ (i j : nat) source_key dest_key user_name unit_name,
    evs !! i = Some (EvCopy source_key dest_key) →
    evs !! j = Some (EvRecord user_name unit_name) →
    (j < i)%nat.

Definition copy_then_commit (evs : list event) : Prop :=
  ∀ (i j : nat) source_key dest_key user_name unit_name,
    evs !! i = Some (EvCopy source_key dest_key) →
    evs !! j = Some (EvRecord user_name unit_name) →
    (i < j)%nat.

(** What holds of every reachable experiment: only registered workers
    have a history, in memory and in the durable copy, and the password
    store is saved. *)
Definition consistent (e : BratExperiment) : Prop :=
  workers_known e ∧ workers_known (reopen e) ∧
  storage (user_pw_store e) = saved (user_pw_store e).

(** ** A small experiment *)

Definition posting (key : string) : JobPosting.t :=
  JobPosting.mk ("id" +:+ key) ("text" +:+ key).

Definition sample5 : Sample.t :=
  Sample.mk "s3://bucket/samples" "five"
    [posting "a"; posting "b"; posting "c"; posting "d"; posting "e"].

Definition sample0 : Sample.t := Sample.mk "s3://bucket/samples" "none" [].

Definition fresh : BratExperiment := new_experiment "tag" "bucket/brat".

(** Five postings in units of two, each to be seen by two annotators. *)
Definition started5 : BratExperiment :=
  snd (start sample5 [("c", "Competency")] 2 2 fresh).

(** User A is in the password store, then gets a first allocation. *)
Definition registered_A : BratExperiment := registering "A" "pw" started5.

Definition allocated_A : BratExperiment := snd (add_allocation "A" registered_A).

(** A and B have each been given unit_0. *)
Definition allocated_AB : BratExperiment :=
  snd (add_user "B" "pw" (snd (add_user "A" "pw" started5))).

(** ** Notions for the further properties *)

(** The calls that register workers and hand out units. *)
Definition allocation_call (c : call) : Prop :=
  match c with
  | CallAddUser _ _ | CallAddAllocation _ => True
  | CallStart _ _ _ _ | CallReopen => False
  end.

(** The calls made on one experiment object, without constructing it again. *)
Definition same_object_call (c : call) : Prop :=
  match c with
  | CallReopen => False
  | _ => True
  end.

(** What [start] writes in the metadata and the allocation methods only read. *)
Definition configuration_and_units (m : Metadata) :=
  (md_sample_base_path m, md_sample_name m, md_entities_with_shortcuts m,
   md_minimum_annotations_per_posting m, md_max_postings_per_allocation m,
   md_units m).

(** The path of an artifact of a posting: [outfilename + suffix]. *)
Definition posting_file (dir : string) (posting_key : nat) (suffix : string) : string :=
  String.concat "/" [dir; pretty posting_key] +:+ suffix.

(** The blob store after the writes of [start], as folds over the
    postings of a batch and over the batches. *)
Definition posting_files (dir : string) (posting_key : nat) (posting : JobPosting.t)
    (m : gmap string string) : gmap string string :=
  <[posting_file dir posting_key ".ann" := ""]>
    (<[posting_file dir posting_key ".txt" := JobPosting.text posting]> m).

Fixpoint unit_files (dir : string) (posting_key : nat) (batch : list JobPosting.t)
    (m : gmap string string) : gmap string string :=
  match batch with
  | [] => m
  | posting :: rest =>
      unit_files dir (S posting_key) rest (posting_files dir posting_key posting m)
  end.

Fixpoint units_files (data_dir : string) (unit_num : nat)
    (batches : list (list JobPosting.t)) (m : gmap string string)
  : gmap string string :=
  match batches with
  | [] => m
  | batch :: rest =>
      units_files data_dir (S unit_num) rest
        (unit_files (String.concat "/" [data_dir; "." +:+ unit_name_of unit_num])
           0 batch m)
  end.

Definition config_files (e : BratExperiment) (entities : list (string * string))
    (m : gmap string string) : gmap string string :=
  <[String.concat "/" [brat_config_path e; "visual.conf"] := visual_conf entities]>
    (<[String.concat "/" [brat_config_path e; "kb_shortcuts.conf"]
       := kb_shortcuts_conf entities]>
       (<[String.concat "/" [brat_config_path e; "annotation.conf"]
          := annotation_conf entities]> m)).

(** Every character of a string satisfies [P]. *)
Fixpoint chars (P : ascii → Prop) (s : string) : Prop :=
  match s with
  | EmptyString => True
  | String c s' => P c ∧ chars P s'
  end.

(** User A is in the password store of an experiment that was never
    started. *)
Definition unstarted_A : BratExperiment := registering "A" "pw" fresh.

(** A has been given the three units. *)
Definition exhausted_A : BratExperiment :=
  snd (add_allocation "A" (snd (add_allocation "A" allocated_AB))).

(** A user named like the second unit is in the password store. *)
Definition registered_unit_1 : BratExperiment := registering "unit_1" "pw" started5.

(** In memory and in the saved copy, units come with what [start] sets
    with them. *)
Definition units_imply_started (e : BratExperiment) : Prop :=
  (is_Some (md_units (storage (metadata e))) → started e) ∧
  (is_Some (md_units (saved (metadata e))) → started (reopen e)).

(** ** Dictionaries *)

Section DictFacts.
Context {V : Type}.
Implicit Types (d : list (string * V)) (k : string) (v : V).

Lemma Dict_get_set_eq k v d : Dict.get k (Dict.set k v d) = Some v.
Proof.
  induction d as [|[k' v'] d IH]; simpl.
  - by rewrite decide_True.
  - destruct (decide (k = k')) as [->|Hne]; simpl.
    + by rewrite decide_True.
    + by rewrite decide_False.
Qed.

Lemma Dict_get_set_ne k k' v d :
  k ≠ k' → Dict.get k' (Dict.set k v d) = Dict.get k' d.
Proof.
  intros Hne. induction d as [|[k1 v1] d IH]; simpl.
  - by rewrite decide_False.
  - destruct (decide (k = k1)) as [->|Hne1]; simpl.
    + by rewrite !decide_False.
    + destruct (decide (k' = k1)); done.
Qed.

Lemma Dict_set_fresh k v d : Dict.get k d = None → Dict.set k v d = d ++ [(k, v)].
Proof.
  induction d as [|[k' v'] d IH]; simpl; [done|].
  destruct (decide (k = k')); [done|]. intros H. by rewrite IH.
Qed.

Lemma Dict_get_Some_elem k v d : Dict.get k d = Some v → (k, v) ∈ d.
Proof.
  induction d as [|[k' v'] d IH]; simpl; [done|].
  destruct (decide (k = k')) as [->|]; intros H.
  - injection H as ->. left.
  - right. auto.
Qed.

Lemma Dict_get_None_keys k d : Dict.get k d = None ↔ k ∉ Dict.keys d.
Proof.
  unfold Dict.keys. induction d as [|[k' v'] d IH]; simpl.
  - split; [intros _; apply not_elem_of_nil | done].
  - rewrite not_elem_of_cons. destruct (decide (k = k')) as [->|Hne].
    + split; [done | intros [? _]; done].
    + rewrite IH. tauto.
Qed.

Lemma Dict_elem_of_set k v d kv :
  kv ∈ Dict.set k v d → kv = (k, v) ∨ kv ∈ d.
Proof.
  induction d as [|[k' v'] d IH]; simpl.
  - rewrite list_elem_of_singleton. auto.
  - destruct (decide (k = k')); rewrite !elem_of_cons; intuition.
Qed.

Lemma Dict_keys_set_present k v d :
  is_Some (Dict.get k d) → Dict.keys (Dict.set k v d) = Dict.keys d.
Proof.
  unfold Dict.keys. induction d as [|[k' v'] d IH]; simpl.
  - by intros [? ?].
  - destruct (decide (k = k')) as [->|]; simpl; [done|].
    intros H. f_equal. by apply IH.
Qed.

Lemma Dict_set_set k v v' d : Dict.set k v (Dict.set k v' d) = Dict.set k v d.
Proof.
  induction d as [|[k1 v1] d IH]; simpl.
  - by rewrite decide_True.
  - destruct (decide (k = k1)) as [->|Hne]; simpl.
    + by rewrite decide_True.
    + rewrite decide_False by done. by rewrite IH.
Qed.

Lemma Dict_set_id k v d : Dict.get k d = Some v → Dict.set k v d = d.
Proof.
  induction d as [|[k1 v1] d IH]; simpl; [done|].
  destruct (decide (k = k1)) as [->|Hne].
  - by intros [= ->].
  - intros H. by rewrite IH.
Qed.

Lemma Dict_contains_true k d : Dict.contains k d = true ↔ is_Some (Dict.get k d).
Proof.
  unfold Dict.contains. destruct (Dict.get k d); split; done.
Qed.

Lemma Dict_contains_false k d : Dict.contains k d = false ↔ Dict.get k d = None.
Proof. unfold Dict.contains. by destruct (Dict.get k d). Qed.
End DictFacts.

(** ** Running the methods *)

(** Unfolds the monad so that a method applied to a state computes. *)
Ltac run :=
  unfold bind, ret, raise, gets, modify, metadata_getitem; simpl.

Lemma snd_list_find_shift {A} (r : option (nat * A)) :
  snd <$> (prod_map S id <$> r) = snd <$> r.
Proof. by destruct r as [[??]|]. Qed.

Section Allocation.
Implicit Types (e : BratExperiment) (user_name unit_name : string).
Implicit Types (a : list (string * list string)) (h : list string).

Lemma initialize_allocations_run user_name e :
  initialize_allocations user_name e = (Ok tt, prepared user_name e).
Proof.
  destruct e as [n p [md mds] pw s ev].
  destruct md as [f1 f2 f3 f4 f5 us [al|]];
    unfold initialize_allocations, allocations_setitem, prepared,
      prepared_allocations, allocations_of, with_metadata, set_allocations;
    run.
  - destruct (Dict.contains user_name al); simpl; reflexivity.
  - reflexivity.
Qed.

Lemma allocations_of_prepared user_name e :
  md_allocations (storage (metadata (prepared user_name e)))
  = Some (prepared_allocations user_name e).
Proof. reflexivity. Qed.

Lemma get_prepared_allocations user_name e :
  Dict.get user_name (prepared_allocations user_name e) = Some (history user_name e).
Proof.
  unfold prepared_allocations, history.
  destruct (Dict.contains user_name (allocations_of e)) eqn:Hc.
  - apply Dict_contains_true in Hc as [h Hh]. by rewrite Hh.
  - apply Dict_contains_false in Hc. rewrite Hc. apply Dict_get_set_eq.
Qed.

Lemma history_prepared user_name e :
  history user_name (prepared user_name e) = history user_name e.
Proof.
  unfold history at 1. unfold allocations_of.
  rewrite allocations_of_prepared. simpl.
  by rewrite get_prepared_allocations.
Qed.

Lemma get_prepared_allocations_ne user_name other e :
  user_name ≠ other →
  Dict.get other (prepared_allocations user_name e) = Dict.get other (allocations_of e).
Proof.
  intros Hne. unfold prepared_allocations.
  destruct (Dict.contains user_name (allocations_of e)); [done|].
  by apply Dict_get_set_ne.
Qed.

Lemma coverage_snoc_empty a user_name unit_name :
  coverage (a ++ [(user_name, [])]) unit_name = coverage a unit_name.
Proof.
  unfold coverage, Dict.values. rewrite fmap_app, filter_app, length_app.
  rewrite fmap_cons, filter_cons_False by (simpl; apply not_elem_of_nil).
  simpl. lia.
Qed.

Lemma coverage_prepared user_name e unit_name :
  coverage (prepared_allocations user_name e) unit_name
  = coverage (allocations_of e) unit_name.
Proof.
  unfold prepared_allocations.
  destruct (Dict.contains user_name (allocations_of e)) eqn:Hc; [done|].
  apply Dict_contains_false in Hc.
  rewrite Dict_set_fresh by done. apply coverage_snoc_empty.
Qed.

Lemma needs_more_coverage_prepared user_name e unit_name :
  needs_more_coverage (prepared user_name e) unit_name
  ↔ needs_more_coverage e unit_name.
Proof.
  unfold needs_more_coverage, allocations_of at 1.
  rewrite allocations_of_prepared. simpl.
  by rewrite coverage_prepared.
Qed.

(** The searches read the state and leave it as it is. *)
Lemma allocations_getitem_run user_name e a h :
  md_allocations (storage (metadata e)) = Some a →
  Dict.get user_name a = Some h →
  allocations_getitem user_name e = (Ok h, e).
Proof. intros Ha Hh. unfold allocations_getitem. run. by rewrite Ha, Hh. Qed.

Lemma needs_allocation_run unit_name e a minimum :
  md_allocations (storage (metadata e)) = Some a →
  md_minimum_annotations_per_posting (storage (metadata e)) = Some minimum →
  needs_allocation unit_name e
  = (Ok (bool_decide (Z.of_nat (coverage a unit_name) < minimum)%Z), e).
Proof. intros Ha Hm. unfold needs_allocation. run. by rewrite Ha, Hm. Qed.

(** On an initialized experiment the method computes the spec's
    [needs_more_coverage]. *)
Lemma needs_allocation_spec unit_name e :
  is_Some (md_allocations (storage (metadata e))) →
  is_Some (md_minimum_annotations_per_posting (storage (metadata e))) →
  needs_allocation unit_name e
  = (Ok (bool_decide (needs_more_coverage e unit_name)), e).
Proof.
  intros [a Ha] [minimum Hm]. rewrite (needs_allocation_run _ _ _ _ Ha Hm).
  do 2 f_equal. apply bool_decide_ext.
  unfold needs_more_coverage, allocations_of. by rewrite Ha, Hm.
Qed.

Lemma needs_allocation_state unit_name e : snd (needs_allocation unit_name e) = e.
Proof.
  unfold needs_allocation. run.
  destruct (md_allocations (storage (metadata e))); [|done].
  by destruct (md_minimum_annotations_per_posting (storage (metadata e))).
Qed.

Lemma next_unseen_run user_name names e a h :
  md_allocations (storage (metadata e)) = Some a →
  Dict.get user_name a = Some h →
  next_unseen user_name names e
  = (Ok (snd <$> list_find (λ u, u ∉ h) names), e).
Proof.
  intros Ha Hh. induction names as [|u names IH]; [done|].
  simpl. unfold bind at 1. rewrite (allocations_getitem_run _ _ _ _ Ha Hh).
  case_bool_decide as Hu.
  - rewrite decide_False by tauto. by rewrite IH, snd_list_find_shift.
  - by rewrite decide_True.
Qed.

Lemma next_needing_run user_name names e a h minimum :
  md_allocations (storage (metadata e)) = Some a →
  Dict.get user_name a = Some h →
  md_minimum_annotations_per_posting (storage (metadata e)) = Some minimum →
  next_needing user_name names e
  = (Ok (snd <$> list_find (λ u, (u ∉ h) ∧ needs_more_coverage e u) names), e).
Proof.
  intros Ha Hh Hm. induction names as [|u names IH]; [done|].
  assert (Hn : needs_more_coverage e u ↔ (Z.of_nat (coverage a u) < minimum)%Z).
  { unfold needs_more_coverage, allocations_of. by rewrite Hm, Ha. }
  simpl. unfold bind at 1. rewrite (allocations_getitem_run _ _ _ _ Ha Hh).
  case_bool_decide as Hu.
  - rewrite decide_False by tauto. by rewrite IH, snd_list_find_shift.
  - unfold bind at 1. rewrite (needs_allocation_run _ _ _ _ Ha Hm).
    case_bool_decide as Hc.
    + rewrite decide_True by tauto. done.
    + rewrite decide_False by tauto. by rewrite IH, snd_list_find_shift.
Qed.

(** Without a coverage target the first search may raise, but what it
    finds is still a unit the user has not seen. *)
Lemma next_needing_sound user_name names e a h :
  md_allocations (storage (metadata e)) = Some a →
  Dict.get user_name a = Some h →
  ∃ r, next_needing user_name names e = (r, e) ∧
       ∀ c, r = Ok c → truthy c = true →
            ∃ u, c = Some u ∧ u ≠ "" ∧ u ∈ names ∧ u ∉ h.
Proof.
  intros Ha Hh. induction names as [|u names IH].
  - eexists. split; [reflexivity|]. intros c [= <-]. done.
  - simpl. unfold bind at 1. rewrite (allocations_getitem_run _ _ _ _ Ha Hh).
    destruct IH as (r & Hr & Hsound).
    assert (Hrest : ∀ c, r = Ok c → truthy c = true →
              ∃ u', c = Some u' ∧ u' ≠ "" ∧ u' ∈ u :: names ∧ u' ∉ h).
    { intros c Hc Ht. destruct (Hsound c Hc Ht) as (u' & ? & ? & ? & ?).
      exists u'. rewrite elem_of_cons. auto. }
    case_bool_decide as Hu; [eauto|].
    unfold bind at 1.
    pose proof (needs_allocation_state u e) as Hst.
    destruct (needs_allocation u e) as [[[]|x] e']; simpl in Hst; subst e'.
    + eexists. split; [reflexivity|]. intros c [= <-] Ht.
      exists u. simpl in Ht. apply negb_true_iff, bool_decide_eq_false in Ht.
      rewrite elem_of_cons. auto.
    + eauto.
    + eexists. split; [reflexivity|]. intros c. done.
Qed.

Lemma choose_unit_state user_name e a h :
  md_allocations (storage (metadata e)) = Some a →
  Dict.get user_name a = Some h →
  ∃ r, choose_unit user_name e = (r, e) ∧
       ∀ c, r = Ok c → truthy c = true →
            ∃ u, c = Some u ∧ u ≠ "" ∧ u ∈ unit_names e ∧ u ∉ h.
Proof.
  intros Ha Hh. unfold choose_unit, unit_names, units_of. run.
  destruct (md_units (storage (metadata e))) as [us|] eqn:Hus.
  2:{ eexists. split; [reflexivity|]. done. }
  simpl.
  destruct (next_needing_sound user_name (Dict.keys us) e a h Ha Hh)
    as (r & Hr & Hsound).
  rewrite Hr. destruct r as [c|x]; [|eexists; split; [reflexivity|done]].
  destruct (truthy c) eqn:Ht; simpl.
  - eexists. split; [reflexivity|]. intros c' [= <-] _. eauto.
  - rewrite Hus. simpl. rewrite (next_unseen_run _ _ _ _ _ Ha Hh).
    eexists. split; [reflexivity|]. intros c' [= <-].
    destruct (list_find (λ u, u ∉ h) (Dict.keys us)) as [[i u]|] eqn:Hf; simpl.
    + intros Hu. apply list_find_Some in Hf as (Hi & Hnew & _).
      exists u. apply negb_true_iff, bool_decide_eq_false in Hu.
      eauto using list_elem_of_lookup_2.
    + by rewrite Ht.
Qed.


Lemma choose_unit_run user_name e a us minimum :
  md_allocations (storage (metadata e)) = Some a →
  is_Some (Dict.get user_name a) →
  md_units (storage (metadata e)) = Some us →
  md_minimum_annotations_per_posting (storage (metadata e)) = Some minimum →
  choose_unit user_name e = (Ok (selection user_name e), e).
Proof.
  intros Ha [h Hh] Hus Hm.
  unfold choose_unit, selection, unit_names, units_of, history, allocations_of.
  run. rewrite Hus, Ha. simpl. rewrite Hh. simpl.
  rewrite (next_needing_run _ _ _ _ _ _ Ha Hh Hm).
  destruct (truthy _) eqn:Ht; simpl; [done|].
  rewrite Hus. simpl. rewrite (next_unseen_run _ _ _ _ _ Ha Hh).
  by destruct (snd <$> list_find (λ u, u ∉ h) (Dict.keys us)).
Qed.

(** *** Delivery *)

Lemma listing_present dir e k : k ∈ listing dir e → is_Some (s3 e !! k).
Proof.
  unfold listing. rewrite list_elem_of_filter, list_elem_of_fmap.
  intros (_ & [k' content] & -> & Hin). apply elem_of_map_to_list in Hin.
  by eexists.
Qed.

Lemma copies_run dest source_keys e :
  (∀ k, k ∈ source_keys → is_Some (s3 e !! k)) →
  for_each (λ source_key, s3_copy source_key (dest source_key)) source_keys e
  = (Ok tt,
     mkExperiment (experiment_name e) (brat_s3_path e) (metadata e) (user_pw_store e)
       (copy_all dest source_keys (s3 e))
       (events e ++ map (λ k, EvCopy k (dest k)) source_keys)).
Proof.
  revert e. induction source_keys as [|k ks IH]; intros e Hin.
  - destruct e. simpl. unfold ret. by rewrite app_nil_r.
  - simpl. unfold bind at 1, s3_copy at 1.
    destruct (Hin k) as [content Hk]; [left|]. rewrite Hk.
    rewrite IH.
    + simpl. by rewrite <- app_assoc.
    + intros k' Hk'. simpl.
      destruct (decide (dest k = k')) as [->|Hne].
      * rewrite lookup_insert_eq. by eexists.
      * rewrite lookup_insert_ne by done. apply Hin. by right.
Qed.

Lemma deliver_run user_name unit_name e a h :
  md_allocations (storage (metadata e)) = Some a →
  Dict.get user_name a = Some h →
  deliver user_name unit_name e
  = (Ok (allocation_path e user_name unit_name), delivered user_name unit_name e).
Proof.
  intros Ha Hh. unfold deliver, s3_ls. run.
  fold (listing (unit_path e unit_name) e).
  rewrite copies_run by apply listing_present.
  unfold allocations_append, allocations_getitem, allocations_setitem. run.
  rewrite Ha. simpl. rewrite Hh. simpl. rewrite Ha. simpl.
  unfold delivered, history, allocations_of. rewrite Ha. simpl. rewrite Hh. simpl.
  unfold log_event, with_metadata. simpl. by rewrite <- app_assoc.
Qed.

(** *** The three ways [add_allocation] can end *)

Lemma add_allocation_unknown user_name e :
  ¬ registered user_name e →
  add_allocation user_name e
  = (Raise (ValueError "Username not in user-password store. Please call add_user first"),
     e).
Proof.
  intros Hr. unfold add_allocation. run.
  by rewrite bool_decide_eq_false_2.
Qed.

Lemma add_allocation_cases user_name e :
  registered user_name e →
  (∃ x, add_allocation user_name e = (Raise x, prepared user_name e)) ∨
  (∃ u, u ≠ "" ∧ u ∈ unit_names e ∧ (u ∉ history user_name e) ∧
        add_allocation user_name e
        = (Ok (allocation_path e user_name u),
           delivered user_name u (prepared user_name e))).
Proof.
  intros Hr. unfold add_allocation. run.
  rewrite bool_decide_eq_true_2 by done. simpl.
  rewrite initialize_allocations_run.
  pose proof (allocations_of_prepared user_name e) as Ha.
  pose proof (get_prepared_allocations user_name e) as Hh.
  destruct (choose_unit_state _ _ _ _ Ha Hh) as (r & Hrun & Hsound).
  rewrite Hrun. destruct r as [c|x]; [|left; eauto].
  destruct (truthy c) eqn:Ht; simpl; [|left; eauto].
  destruct (Hsound c eq_refl Ht) as (u & -> & Hne & Hin & Hnew).
  right. exists u. simpl. rewrite (deliver_run _ _ _ _ _ Ha Hh). done.
Qed.
End Allocation.

(** ** [start]: the units it builds *)


Section Start.
Implicit Types (e : BratExperiment) (d : list (string * list (nat * string))).

Lemma with_units_s3_twice d1 d2 s1 s2 e :
  with_units_s3 d2 s2 (with_units_s3 d1 s1 e) = with_units_s3 d2 s2 e.
Proof. reflexivity. Qed.

Lemma with_units_s3_same e d :
  md_units (storage (metadata e)) = Some d → with_units_s3 d (s3 e) e = e.
Proof.
  destruct e as [n p [md sv] pw s ev]. destruct md. simpl. by intros ->.
Qed.

Lemma length_members_from j batch : length (members_from j batch) = length batch.
Proof. revert j. induction batch; intros j; simpl; [done | by rewrite IHbatch]. Qed.

Lemma write_postings_run unit_name j batch e d acc :
  md_units (storage (metadata e)) = Some d →
  Dict.get unit_name d = Some acc →
  ∃ s', for_enumerate (write_posting unit_name) j batch e
        = (Ok tt, with_units_s3 (Dict.set unit_name (acc ++ members_from j batch) d) s' e).
Proof.
  revert j e d acc. induction batch as [|posting batch IH]; intros j e d acc Hd Hacc.
  - exists (s3 e). simpl. rewrite app_nil_r, (Dict_set_id _ _ _ Hacc).
    by rewrite with_units_s3_same.
  - simpl. unfold bind at 1, write_posting at 1, units_append, s3_write. run.
    rewrite Hd. simpl. rewrite Hacc. simpl.
    set (d1 := Dict.set unit_name (acc ++ [(j, JobPosting.id posting)]) d).
    match goal with
    | |- ∃ _, for_enumerate _ _ _ ?e1 = _ =>
        destruct (IH (S j) e1 d1 (acc ++ [(j, JobPosting.id posting)]))
          as [s' Hrun]
    end.
    + reflexivity.
    + apply Dict_get_set_eq.
    + exists s'. rewrite Hrun. unfold d1. rewrite Dict_set_set.
      by rewrite <- app_assoc.
Qed.

Lemma write_units_run i batches e d :
  md_units (storage (metadata e)) = Some d →
  ∃ s', for_enumerate write_unit i batches e
        = (Ok tt,
           with_units_s3
             (foldl (λ d entry, Dict.set entry.1 entry.2 d) d (unit_entries i batches))
             s' e).
Proof.
  revert i e d. induction batches as [|batch batches IH]; intros i e d Hd.
  - exists (s3 e). simpl. by rewrite with_units_s3_same.
  - simpl. unfold bind at 1, write_unit at 1, units_setitem. run. rewrite Hd. simpl.
    match goal with
    | |- ∃ _, match for_enumerate _ _ _ ?e1 with _ => _ end = _ =>
        destruct (write_postings_run (unit_name_of i) 0 batch e1
                    (Dict.set (unit_name_of i) [] d) [])
          as [s1 Hrun]
    end.
    + reflexivity.
    + apply Dict_get_set_eq.
    + rewrite Hrun. rewrite Dict_set_set. simpl.
      match goal with
      | |- ∃ _, for_enumerate _ _ _ ?e2 = _ =>
          destruct (IH (S i) e2 (Dict.set (unit_name_of i) (members_from 0 batch) d))
            as [s2 Hrun2]
      end.
      * reflexivity.
      * exists s2. by rewrite Hrun2.
Qed.

Lemma unit_name_of_inj i j : unit_name_of i = unit_name_of j → i = j.
Proof.
  unfold unit_name_of. intros H. apply (inj (String.app "unit_")) in H.
  by apply (inj pretty) in H.
Qed.

Lemma keys_unit_entries i batches :
  Dict.keys (unit_entries i batches) = unit_name_of <$> seq i (length batches).
Proof.
  revert i. induction batches as [|b bs IH]; intros i; simpl; [done|].
  f_equal. apply IH.
Qed.

(** The names are pairwise distinct, so each assignment adds an entry. *)
Lemma fold_unit_entries (i : nat) batches d :
  (∀ j : nat, (i ≤ j)%nat → unit_name_of j ∉ Dict.keys d) →
  foldl (λ d entry, Dict.set entry.1 entry.2 d) d (unit_entries i batches)
  = d ++ unit_entries i batches.
Proof.
  revert i d. induction batches as [|b bs IH]; intros i d Hfresh; simpl.
  - by rewrite app_nil_r.
  - rewrite Dict_set_fresh by (apply Dict_get_None_keys, Hfresh; lia).
    rewrite IH.
    + by rewrite <- app_assoc.
    + intros j Hj. unfold Dict.keys. rewrite fmap_app, not_elem_of_app. split.
      * apply Hfresh. lia.
      * simpl. rewrite list_elem_of_singleton. intros Heq%unit_name_of_inj. lia.
Qed.


Lemma start_run sample entities minimum maximum e :
  ∃ s', start sample entities minimum maximum e
        = (Ok tt,
           mkExperiment (experiment_name e) (brat_s3_path e)
             (let m := started_metadata sample entities minimum maximum
                         (storage (metadata e)) in
              mkStore m m)
             (user_pw_store e) s' (events e)).
Proof.
  unfold start. unfold bind at 1. unfold modify at 1.
  unfold bind at 1. unfold modify at 1.
  unfold bind at 1.
  match goal with
  | |- ∃ _, match for_enumerate _ _ ?bs ?e1 with _ => _ end = _ =>
      destruct (write_units_run 0 bs e1 []) as [s1 Hrun]
  end.
  - reflexivity.
  - rewrite Hrun. rewrite fold_unit_entries by (intros; apply not_elem_of_nil).
    unfold metadata_save, s3_write. run. eexists. reflexivity.
Qed.
End Start.

(** ** [Batch]: sizes and number of the groups *)

Section BatchFacts.
Context {A : Type}.
Implicit Types (l cur : list A) (size : nat).

Lemma Batch_group_take_drop size cur l :
  (1 ≤ length cur ≤ size)%nat →
  Batch_group (Z.of_nat size) (Z.of_nat (length cur)) cur l
  = (rev cur ++ take (size - length cur) l)
      :: Batch (drop (size - length cur) l) (Z.of_nat size).
Proof.
  revert cur. induction l as [|x l IH]; intros cur Hcur; simpl.
  - by rewrite take_nil, drop_nil, app_nil_r.
  - destruct (Z.eqb_spec (Z.of_nat (length cur)) (Z.of_nat size)) as [Heq|Hne].
    + apply Nat2Z.inj in Heq. rewrite Heq, Nat.sub_diag. simpl.
      by rewrite app_nil_r.
    + assert (Hlt : (length cur < size)%nat) by lia.
      replace (Z.of_nat (length cur) + 1)%Z with (Z.of_nat (length (x :: cur)))
        by (simpl; lia).
      rewrite IH by (simpl; lia).
      replace (size - length cur)%nat with (S (size - length (x :: cur)))
        by (simpl; lia).
      simpl. by rewrite <- app_assoc.
Qed.

(** For a size of at least one, a group is the next [size] items. *)
Lemma Batch_unfold size l :
  (1 ≤ size)%nat → l ≠ [] →
  Batch l (Z.of_nat size) = take size l :: Batch (drop size l) (Z.of_nat size).
Proof.
  intros Hsize Hl. destruct l as [|x l]; [done|]. unfold Batch at 1.
  change 1%Z with (Z.of_nat (length [x])).
  rewrite Batch_group_take_drop by (simpl; lia).
  destruct size as [|size]; [lia|]. simpl. by rewrite Nat.sub_0_r.
Qed.

Lemma Batch_nil limit : Batch (@nil A) limit = [].
Proof. reflexivity. Qed.

(** Group [i] holds [size] items, or what is left after [i] full groups. *)
Lemma Batch_lookup_length size l i group :
  (1 ≤ size)%nat →
  Batch l (Z.of_nat size) !! i = Some group →
  length group = (size `min` (length l - i * size))%nat.
Proof.
  intros Hsize. remember (length l) as n eqn:Hn.
  revert l Hn i group. induction (lt_wf n) as [n _ IH]; intros l Hn i group.
  destruct (decide (l = [])) as [->|Hl]; [done|].
  rewrite Batch_unfold by done. destruct i as [|i]; simpl.
  - intros [= <-]. rewrite length_take. lia.
  - intros Hi.
    assert (Hlen : (0 < length l)%nat) by (destruct l; [done | simpl; lia]).
    rewrite (IH (length (drop size l))) with (l := drop size l) (i := i) (group := group);
      try done; rewrite ?length_drop; lia.
Qed.

Lemma Batch_length size l :
  (1 ≤ size)%nat →
  length (Batch l (Z.of_nat size)) = ((length l + size - 1) / size)%nat.
Proof.
  intros Hsize. remember (length l) as n eqn:Hn.
  revert l Hn. induction (lt_wf n) as [n _ IH]; intros l Hn.
  destruct (decide (l = [])) as [->|Hl].
  - simpl in Hn. subst n. simpl. symmetry. apply Nat.div_small. lia.
  - assert (Hlen : (0 < length l)%nat) by (destruct l; [done | simpl; lia]).
    rewrite Batch_unfold by done. simpl.
    rewrite (IH (length (drop size l))) with (l := drop size l);
      try done; rewrite ?length_drop; [|lia].
    rewrite <- Hn.
    destruct (decide (n ≤ size)%nat) as [Hle|Hgt].
    + replace (n - size + size - 1)%nat with (size - 1)%nat by lia.
      rewrite Nat.div_small by lia.
      apply (Nat.div_unique _ _ _ (n - 1)); lia.
    + replace (n + size - 1)%nat with ((n - size + size - 1) + 1 * size)%nat by lia.
      rewrite Nat.div_add by lia. lia.
Qed.

Lemma Batch_concat size l :
  (1 ≤ size)%nat → concat (Batch l (Z.of_nat size)) = l.
Proof.
  intros Hsize. remember (length l) as n eqn:Hn.
  revert l Hn. induction (lt_wf n) as [n _ IH]; intros l Hn.
  destruct (decide (l = [])) as [->|Hl]; [done|].
  assert (Hlen : (0 < length l)%nat) by (destruct l; [done | simpl; lia]).
  rewrite Batch_unfold by done. simpl.
  rewrite (IH (length (drop size l))) with (l := drop size l);
    try done; rewrite ?length_drop; [|lia].
  apply take_drop.
Qed.
End BatchFacts.

(** ** Histories across a call *)

Section Histories.
Implicit Types (e : BratExperiment) (user_name unit_name worker : string).

Lemma history_delivered user_name unit_name e :
  history user_name (delivered user_name unit_name e)
  = history user_name e ++ [unit_name].
Proof.
  unfold history at 1. unfold allocations_of, delivered. simpl.
  by rewrite Dict_get_set_eq.
Qed.

Lemma history_delivered_ne user_name unit_name worker e :
  user_name ≠ worker →
  history worker (delivered user_name unit_name e) = history worker e.
Proof.
  intros Hne. unfold history at 1. unfold allocations_of at 1, delivered. simpl.
  by rewrite Dict_get_set_ne.
Qed.

Lemma history_prepared_ne user_name worker e :
  user_name ≠ worker →
  history worker (prepared user_name e) = history worker e.
Proof.
  intros Hne. unfold history at 1. unfold allocations_of at 1.
  rewrite allocations_of_prepared. simpl.
  by rewrite get_prepared_allocations_ne.
Qed.

Lemma history_prepared_any user_name worker e :
  history worker (prepared user_name e) = history worker e.
Proof.
  destruct (decide (user_name = worker)) as [->|Hne].
  - apply history_prepared.
  - by apply history_prepared_ne.
Qed.

Lemma selection_prepared user_name e :
  selection user_name (prepared user_name e) = selection user_name e.
Proof.
  unfold selection. rewrite history_prepared.
  change (unit_names (prepared user_name e)) with (unit_names e).
  rewrite (list_find_ext _
             (λ u, (u ∉ history user_name e) ∧ needs_more_coverage e u)).
  - done.
  - intros u. by rewrite needs_more_coverage_prepared.
Qed.

(** [add_allocation] on an experiment that has units and a coverage target. *)
Lemma add_allocation_run user_name e :
  registered user_name e →
  is_Some (md_units (storage (metadata e))) →
  is_Some (md_minimum_annotations_per_posting (storage (metadata e))) →
  add_allocation user_name e
  = if truthy (selection user_name e)
    then (Ok (allocation_path e user_name (default "" (selection user_name e))),
          delivered user_name (default "" (selection user_name e))
            (prepared user_name e))
    else (Raise (ValueError "No units left to allocate to user!"),
          prepared user_name e).
Proof.
  intros Hr [us Hus] [minimum Hm]. unfold add_allocation. run.
  rewrite bool_decide_eq_true_2 by done. simpl.
  rewrite initialize_allocations_run.
  rewrite (choose_unit_run user_name (prepared user_name e)
             (prepared_allocations user_name e) us minimum);
    [| reflexivity | rewrite get_prepared_allocations; by eexists
     | destruct e as [? ? [[] ?] ? ? ?]; exact Hus
     | destruct e as [? ? [[] ?] ? ? ?]; exact Hm ].
  rewrite selection_prepared.
  destruct (truthy (selection user_name e)); simpl; [|done].
  erewrite deliver_run;
    [reflexivity | reflexivity | apply get_prepared_allocations].
Qed.

Lemma truthy_Some_elem names u :
  Forall (λ unit_name, unit_name ≠ "") names → u ∈ names → truthy (Some u) = true.
Proof.
  rewrite Forall_forall. intros Hall Hin. simpl.
  apply negb_true_iff, bool_decide_eq_false. by apply Hall.
Qed.

Lemma first_in_order_find (P : string → Prop) `{!∀ x, Decision (P x)} names u :
  first_in_order P names u ↔ snd <$> list_find P names = Some u.
Proof.
  unfold first_in_order. split.
  - intros (i & Hi & HP & Hfirst).
    by rewrite (proj2 (list_find_Some P names i u)).
  - destruct (list_find P names) as [[i u']|] eqn:Hf; intros [= <-].
    apply list_find_Some in Hf. eauto.
Qed.

Lemma first_in_order_elem P names u : first_in_order P names u → u ∈ names.
Proof. intros (i & Hi & _). by eapply list_elem_of_lookup_2. Qed.

Lemma selection_needing user_name e u :
  Forall (λ unit_name, unit_name ≠ "") (unit_names e) →
  first_in_order (λ v, (v ∉ history user_name e) ∧ needs_more_coverage e v)
    (unit_names e) u →
  selection user_name e = Some u.
Proof.
  intros Hnames Hfirst. unfold selection.
  pose proof (first_in_order_elem _ _ _ Hfirst) as Hin.
  apply (proj1 (first_in_order_find _ _ _)) in Hfirst. rewrite Hfirst.
  by rewrite (truthy_Some_elem _ _ Hnames Hin).
Qed.

Lemma selection_unseen user_name e u :
  Forall (λ v, ¬ ((v ∉ history user_name e) ∧ needs_more_coverage e v))
    (unit_names e) →
  first_in_order (λ v, v ∉ history user_name e) (unit_names e) u →
  selection user_name e = Some u.
Proof.
  intros Hnone Hfirst. unfold selection.
  apply (proj2 (list_find_None _ _)) in Hnone. rewrite Hnone. simpl.
  apply (proj1 (first_in_order_find _ _ _)) in Hfirst. by rewrite Hfirst.
Qed.

Lemma selection_exhausted user_name e :
  Forall (λ v, v ∈ history user_name e) (unit_names e) →
  selection user_name e = None.
Proof.
  intros Hall. unfold selection.
  rewrite (proj2 (list_find_None _ _)).
  2:{ eapply Forall_impl; [exact Hall|]. simpl. tauto. }
  simpl. rewrite (proj2 (list_find_None _ _)); [done|].
  eapply Forall_impl; [exact Hall|]. simpl. tauto.
Qed.

Lemma selection_Some user_name e u :
  selection user_name e = Some u → u ∈ unit_names e ∧ u ∉ history user_name e.
Proof.
  unfold selection.
  destruct (list_find (λ v, (v ∉ history user_name e) ∧ needs_more_coverage e v)
              (unit_names e)) as [[i v]|] eqn:Hf1; simpl.
  - apply list_find_Some in Hf1 as (Hi & [Hnew _] & _).
    apply list_elem_of_lookup_2 in Hi.
    destruct (list_find (λ v, v ∉ history user_name e) (unit_names e))
      as [[j w]|] eqn:Hf2; simpl.
    + apply list_find_Some in Hf2 as (Hj & Hw & _).
      apply list_elem_of_lookup_2 in Hj.
      destruct (negb (bool_decide (v = ""))); intros [= <-]; done.
    + destruct (negb (bool_decide (v = ""))); intros [= <-]; done.
  - destruct (list_find (λ v, v ∉ history user_name e) (unit_names e))
      as [[j w]|] eqn:Hf2; simpl; [|done].
    apply list_find_Some in Hf2 as (Hj & Hw & _).
    apply list_elem_of_lookup_2 in Hj. intros [= <-]. done.
Qed.

Lemma selection_None user_name e :
  Forall (λ unit_name, unit_name ≠ "") (unit_names e) →
  truthy (selection user_name e) = false →
  Forall (λ v, v ∈ history user_name e) (unit_names e).
Proof.
  intros Hnames. unfold selection.
  destruct (list_find (λ v, (v ∉ history user_name e) ∧ needs_more_coverage e v)
              (unit_names e)) as [[i v]|] eqn:Hf1.
  - apply list_find_Some in Hf1 as (Hi & _ & _).
    apply list_elem_of_lookup_2 in Hi.
    cbn [fmap option_fmap option_map snd].
    rewrite (truthy_Some_elem _ _ Hnames Hi).
    by rewrite (truthy_Some_elem _ _ Hnames Hi).
  - cbn [fmap option_fmap option_map truthy].
    destruct (list_find (λ v, v ∉ history user_name e) (unit_names e))
      as [[j w]|] eqn:Hf2.
    + apply list_find_Some in Hf2 as (Hj & _ & _).
      apply list_elem_of_lookup_2 in Hj.
      cbn [fmap option_fmap option_map snd].
      by rewrite (truthy_Some_elem _ _ Hnames Hj).
    + intros _. apply list_find_None in Hf2.
      eapply Forall_impl; [exact Hf2|]. simpl. intros v Hv.
      by destruct (decide (v ∈ history user_name e)).
Qed.
End Histories.

(** ** Before [start] *)

(** Without the ['units'] key the search cannot begin: the call raises
    [KeyError 'units'], after lines 174-178 have run. *)
Lemma add_allocation_no_units user_name e :
  registered user_name e →
  md_units (storage (metadata e)) = None →
  add_allocation user_name e = (Raise (KeyError "units"), prepared user_name e).
Proof.
  intros Hr Hunits. unfold add_allocation. run.
  rewrite bool_decide_eq_true_2 by done. simpl.
  rewrite initialize_allocations_run. unfold choose_unit. run.
  destruct e as [? ? [[] ?] ? ? ?]. simpl in *. by rewrite Hunits.
Qed.

(** ** The allocation policy *)

(** C1, as the code has it.  For a registered worker of an experiment on
    which [start] has run, [add_allocation] follows the two-tier policy.
    (1) If some unit is not in the worker's history and needs more
    coverage, the first such unit in creation order is allocated.  (2) If
    there is none, the first unit in creation order that is not in the
    worker's history is allocated, whatever its coverage.  (3) If every unit
    is in the worker's history, the call raises [ValueError "No units left
    to allocate to user!"].  An allocated unit is returned as its allocation
    path and is appended to the worker's history.  For a registered worker
    of an experiment without the ['units'] key ([start] has not run), the
    call raises [KeyError 'units'] instead. *)
Theorem add_allocation_two_tier user_name e :
  registered user_name e →
  (started e →
   (∀ u, first_in_order
           (λ v, (v ∉ history user_name e) ∧ needs_more_coverage e v)
           (unit_names e) u →
         fst (add_allocation user_name e) = Ok (allocation_path e user_name u) ∧
         history user_name (snd (add_allocation user_name e))
         = history user_name e ++ [u]) ∧
   (Forall (λ v, ¬ ((v ∉ history user_name e) ∧ needs_more_coverage e v))
      (unit_names e) →
    ∀ u, first_in_order (λ v, v ∉ history user_name e) (unit_names e) u →
         fst (add_allocation user_name e) = Ok (allocation_path e user_name u) ∧
         history user_name (snd (add_allocation user_name e))
         = history user_name e ++ [u]) ∧
   (Forall (λ v, v ∈ history user_name e) (unit_names e) →
    fst (add_allocation user_name e)
    = Raise (ValueError "No units left to allocate to user!"))) ∧
  (md_units (storage (metadata e)) = None →
   fst (add_allocation user_name e) = Raise (KeyError "units")).
Proof.
  intros Hr. split.
  - intros (Hus & Hm & Hnames).
    rewrite (add_allocation_run _ _ Hr Hus Hm).
    split; [|split].
    + intros u Hfirst.
      pose proof (first_in_order_elem _ _ _ Hfirst) as Hin.
      rewrite (selection_needing _ _ _ Hnames Hfirst).
      rewrite (truthy_Some_elem _ _ Hnames Hin). simpl.
      by rewrite history_delivered, history_prepared.
    + intros Hnone u Hfirst.
      pose proof (first_in_order_elem _ _ _ Hfirst) as Hin.
      rewrite (selection_unseen _ _ _ Hnone Hfirst).
      rewrite (truthy_Some_elem _ _ Hnames Hin). simpl.
      by rewrite history_delivered, history_prepared.
    + intros Hall. by rewrite (selection_exhausted _ _ Hall).
  - intros Hunits. by rewrite (add_allocation_no_units _ _ Hr Hunits).
Qed.

(** C9.  When the user name is not in the password store, [add_allocation]
    raises the [ValueError] of line 172 and leaves the experiment as it
    was. *)
Theorem add_allocation_unknown_user user_name e :
  ¬ registered user_name e →
  fst (add_allocation user_name e)
  = Raise (ValueError "Username not in user-password store. Please call add_user first")
  ∧ snd (add_allocation user_name e) = e.
Proof. intros Hr. by rewrite add_allocation_unknown. Qed.

(** ** What [start] leaves in the metadata *)

Section StartFacts.
Implicit Types (e : BratExperiment) (sample : Sample.t).

Lemma start_metadata sample entities minimum maximum e :
  fst (start sample entities minimum maximum e) = Ok tt ∧
  storage (metadata (snd (start sample entities minimum maximum e)))
  = started_metadata sample entities minimum maximum (storage (metadata e)) ∧
  saved (metadata (snd (start sample entities minimum maximum e)))
  = started_metadata sample entities minimum maximum (storage (metadata e)).
Proof.
  destruct (start_run sample entities minimum maximum e) as [s' Hrun].
  by rewrite Hrun.
Qed.

Lemma start_user_pw_store sample entities minimum maximum e :
  user_pw_store (snd (start sample entities minimum maximum e)) = user_pw_store e.
Proof.
  destruct (start_run sample entities minimum maximum e) as [s' Hrun].
  by rewrite Hrun.
Qed.

Lemma start_allocations sample entities minimum maximum e :
  md_allocations (storage (metadata (snd (start sample entities minimum maximum e))))
  = md_allocations (storage (metadata e)).
Proof.
  destruct (start_metadata sample entities minimum maximum e) as (_ & -> & _).
  reflexivity.
Qed.

Lemma start_units_of sample entities minimum maximum e :
  units_of (snd (start sample entities minimum maximum e))
  = unit_entries 0 (Batch (Sample.postings sample) maximum).
Proof.
  unfold units_of.
  destruct (start_metadata sample entities minimum maximum e) as (_ & -> & _).
  reflexivity.
Qed.

Lemma unit_name_of_nonempty i : unit_name_of i ≠ "".
Proof. unfold unit_name_of. done. Qed.

(** [start] establishes [started]. *)
Lemma start_started sample entities minimum maximum e :
  started (snd (start sample entities minimum maximum e)).
Proof.
  unfold started, unit_names. rewrite start_units_of.
  destruct (start_metadata sample entities minimum maximum e) as (_ & -> & _).
  split; [by eexists | split; [by eexists|]].
  rewrite keys_unit_entries. apply Forall_fmap, Forall_forall.
  intros i _. apply unit_name_of_nonempty.
Qed.

Lemma length_unit_entries i batches :
  length (unit_entries i batches) = length batches.
Proof. revert i. induction batches as [|b bs IH]; intros i; simpl; [done | by rewrite IH]. Qed.

Lemma lookup_unit_entries (i k : nat) batches unit_name members :
  unit_entries i batches !! k = Some (unit_name, members) →
  ∃ batch, batches !! k = Some batch ∧
           unit_name = unit_name_of (i + k) ∧ members = members_from 0 batch.
Proof.
  revert i k. induction batches as [|b bs IH]; intros i k; simpl; [done|].
  destruct k as [|k]; simpl.
  - intros [= <- <-]. exists b. by rewrite Nat.add_0_r.
  - intros Hk. destruct (IH (S i) k Hk) as (batch & ? & -> & ->).
    exists batch. split; [done|]. split; [f_equal; lia | done].
Qed.
End StartFacts.

(** C10.  While the metadata has no ['allocations'] key, [needs_allocation]
    returns no boolean for any unit name: it raises [KeyError 'allocations']
    (and changes nothing).  So it returns a boolean only on states where the
    key is set.  [start] does not set the key; [add_allocation] for a
    registered user does. *)
Theorem needs_allocation_uninitialized unit_name e :
  (md_allocations (storage (metadata e)) = None →
   needs_allocation unit_name e = (Raise (KeyError "allocations"), e)) ∧
  (∀ b, fst (needs_allocation unit_name e) = Ok b →
        is_Some (md_allocations (storage (metadata e)))) ∧
  (∀ sample entities minimum maximum,
     md_allocations
       (storage (metadata (snd (start sample entities minimum maximum e))))
     = md_allocations (storage (metadata e))) ∧
  (∀ user_name, registered user_name e →
     is_Some (md_allocations
                (storage (metadata (snd (add_allocation user_name e)))))).
Proof.
  split; [|split; [|split]].
  - intros Hnone. unfold needs_allocation. run. by rewrite Hnone.
  - intros b. unfold needs_allocation. run.
    destruct (md_allocations (storage (metadata e))); [by eexists | done].
  - intros. apply start_allocations.
  - intros user_name Hr.
    destruct (add_allocation_cases user_name e Hr) as [[x ->]|(u & _ & _ & _ & ->)];
      by eexists.
Qed.

(** ** Histories never repeat a unit *)

Section Invariant.
Implicit Types (e : BratExperiment) (user_name worker : string).

Lemma add_user_run username password e :
  add_user username password e
  = if bool_decide (registered username e)
    then (Raise (ValueError ("User " +:+ username +:+ " already created")), e)
    else add_allocation username (registering username password e).
Proof.
  unfold add_user, registered. run.
  by destruct (bool_decide (is_Some (storage (user_pw_store e) !! username))).
Qed.

Lemma registered_registering username password e :
  registered username (registering username password e).
Proof. unfold registered, registering. simpl. rewrite lookup_insert_eq. by eexists. Qed.

Lemma histories_distinct_add_allocation user_name e :
  histories_distinct e → histories_distinct (snd (add_allocation user_name e)).
Proof.
  intros Hinv. destruct (decide (registered user_name e)) as [Hr|Hr].
  2:{ by rewrite add_allocation_unknown. }
  destruct (add_allocation_cases user_name e Hr)
    as [[x ->]|(u & _ & _ & Hnew & ->)]; intros worker; simpl.
  - rewrite history_prepared_any. apply Hinv.
  - split; [|apply Hinv].
    destruct (decide (user_name = worker)) as [<-|Hne].
    + rewrite history_delivered, history_prepared.
      apply NoDup_app. split; [apply Hinv|]. split; [|apply NoDup_singleton].
      intros x Hx ->%list_elem_of_singleton. done.
    + rewrite history_delivered_ne, history_prepared_any by done. apply Hinv.
Qed.

Lemma histories_distinct_run_call c e :
  histories_distinct e → histories_distinct (run_call c e).
Proof.
  intros Hinv. destruct c as [username password|user_name|sample ents mi ma|]; simpl.
  - rewrite add_user_run. case_bool_decide; [done|].
    apply histories_distinct_add_allocation. intros worker. apply Hinv.
  - by apply histories_distinct_add_allocation.
  - intros worker. unfold history, allocations_of, reopen. simpl.
    destruct (start_metadata sample ents mi ma e) as (_ & -> & ->). simpl.
    split; apply Hinv.
  - intros worker. split; apply Hinv.
Qed.

Lemma histories_distinct_run_calls cs e :
  histories_distinct e → histories_distinct (run_calls cs e).
Proof.
  revert e. induction cs as [|c cs IH]; intros e Hinv; simpl; [done|].
  by apply IH, histories_distinct_run_call.
Qed.

Lemma add_allocation_saved user_name e :
  saved (metadata (snd (add_allocation user_name e))) = saved (metadata e).
Proof.
  destruct (decide (registered user_name e)) as [Hr|Hr].
  2:{ by rewrite add_allocation_unknown. }
  by destruct (add_allocation_cases user_name e Hr)
    as [[x ->]|(u & _ & _ & _ & ->)].
Qed.

Lemma add_allocation_user_pw_store user_name e :
  user_pw_store (snd (add_allocation user_name e)) = user_pw_store e.
Proof.
  destruct (decide (registered user_name e)) as [Hr|Hr].
  2:{ by rewrite add_allocation_unknown. }
  by destruct (add_allocation_cases user_name e Hr)
    as [[x ->]|(u & _ & _ & _ & ->)].
Qed.
End Invariant.

(** C4, as the code has it.  No worker's history ever holds a unit twice:
    whatever calls of [add_user], [add_allocation], [start] and reopening
    are run from a state whose histories are duplicate-free, the histories
    remain duplicate-free.  [add_allocation] never returns a unit that is
    in the caller's history: a call that returns, returns the directory of
    a unit that was not in the history and appends it.  A call for a
    registered worker of a started experiment either does so or raises the
    "No units left" [ValueError] with the history unchanged and holding
    every unit.  A call for a registered worker of an experiment without
    the ['units'] key raises [KeyError 'units'] and leaves the worker's
    history as it was. *)
Theorem histories_never_repeat cs e0 user_name e :
  (histories_distinct e0 → ∀ worker, NoDup (history worker (run_calls cs e0))) ∧
  (∀ dest_dir,
     fst (add_allocation user_name e) = Ok dest_dir →
     ∃ u, (u ∉ history user_name e) ∧
          dest_dir = allocation_path e user_name u ∧
          history user_name (snd (add_allocation user_name e))
          = history user_name e ++ [u]) ∧
  (registered user_name e → started e →
   (∃ u, (u ∉ history user_name e) ∧ u ∈ unit_names e ∧
         fst (add_allocation user_name e) = Ok (allocation_path e user_name u) ∧
         history user_name (snd (add_allocation user_name e))
         = history user_name e ++ [u])
   ∨ (fst (add_allocation user_name e)
      = Raise (ValueError "No units left to allocate to user!") ∧
      history user_name (snd (add_allocation user_name e)) = history user_name e ∧
      Forall (λ v, v ∈ history user_name e) (unit_names e))) ∧
  (registered user_name e → md_units (storage (metadata e)) = None →
   fst (add_allocation user_name e) = Raise (KeyError "units") ∧
   history user_name (snd (add_allocation user_name e)) = history user_name e).
Proof.
  split; [|split; [|split]].
  - intros Hinv worker. by apply histories_distinct_run_calls.
  - intros dest_dir Hok. destruct (decide (registered user_name e)) as [Hr|Hr].
    2:{ by rewrite add_allocation_unknown in Hok. }
    destruct (add_allocation_cases user_name e Hr)
      as [[x Hx]|(u & _ & _ & Hnew & Hrun)].
    { by rewrite Hx in Hok. }
    rewrite Hrun in Hok |- *. simpl in Hok. injection Hok as <-.
    exists u. simpl. by rewrite history_delivered, history_prepared.
  - intros Hr (Hus & Hm & Hnames).
    rewrite (add_allocation_run _ _ Hr Hus Hm).
    destruct (truthy (selection user_name e)) eqn:Ht.
    + left. destruct (selection user_name e) as [u|] eqn:Hsel; [|done].
      apply selection_Some in Hsel as [Hin Hnew].
      exists u. simpl. by rewrite history_delivered, history_prepared.
    + right. simpl. rewrite history_prepared.
      split; [done|]. split; [done|]. by apply selection_None.
  - intros Hr Hunits. rewrite (add_allocation_no_units _ _ Hr Hunits). simpl.
    by rewrite history_prepared.
Qed.

(** ** Only registered workers have a history *)

Section Consistency.
Implicit Types (e : BratExperiment) (user_name worker : string).

Lemma Dict_keys_set_elem {V} (k k' : string) (v : V) (d : list (string * V)) :
  k' ∈ Dict.keys (Dict.set k v d) → k' = k ∨ k' ∈ Dict.keys d.
Proof.
  unfold Dict.keys. rewrite !list_elem_of_fmap.
  intros ([k1 v1] & -> & Hin). apply Dict_elem_of_set in Hin as [[= -> ->]|Hin].
  - by left.
  - right. by exists (k1, v1).
Qed.

Lemma keys_prepared_allocations user_name worker e :
  worker ∈ Dict.keys (prepared_allocations user_name e) →
  worker = user_name ∨ worker ∈ Dict.keys (allocations_of e).
Proof.
  unfold prepared_allocations.
  destruct (Dict.contains user_name (allocations_of e)); [by right|].
  apply Dict_keys_set_elem.
Qed.

Lemma workers_known_add_allocation user_name e :
  workers_known e → workers_known (snd (add_allocation user_name e)).
Proof.
  intros Hknown. destruct (decide (registered user_name e)) as [Hr|Hr].
  2:{ by rewrite add_allocation_unknown. }
  destruct (add_allocation_cases user_name e Hr)
    as [[x ->]|(u & _ & _ & _ & ->)]; intros worker; simpl.
  - intros [->|Hin]%keys_prepared_allocations; [exact Hr|]. by apply Hknown.
  - unfold allocations_of at 1, delivered. simpl.
    intros [->|[->|Hin]%keys_prepared_allocations]%Dict_keys_set_elem;
      [exact Hr | exact Hr |]. by apply Hknown.
Qed.

Lemma consistent_add_allocation user_name e :
  consistent e → consistent (snd (add_allocation user_name e)).
Proof.
  intros (Hmem & Hsaved & Hpw). split; [by apply workers_known_add_allocation|].
  destruct (decide (registered user_name e)) as [Hr|Hr].
  2:{ by rewrite add_allocation_unknown. }
  destruct (add_allocation_cases user_name e Hr)
    as [[x ->]|(u & _ & _ & _ & ->)]; split; done.
Qed.

Lemma consistent_run_call c e : consistent e → consistent (run_call c e).
Proof.
  intros (Hmem & Hsaved & Hpw).
  destruct c as [username password|user_name|sample ents mi ma|]; simpl.
  - rewrite add_user_run. case_bool_decide; [done|].
    apply consistent_add_allocation. unfold consistent, workers_known, registered.
    simpl. split; [|split; [|done]].
    + intros worker Hin. destruct (decide (username = worker)) as [->|Hne].
      * rewrite lookup_insert_eq. by eexists.
      * rewrite lookup_insert_ne by done. by apply Hmem.
    + intros worker Hin. destruct (decide (username = worker)) as [->|Hne].
      * rewrite lookup_insert_eq. by eexists.
      * rewrite lookup_insert_ne by done.
        specialize (Hsaved worker Hin). unfold registered in Hsaved. simpl in Hsaved.
        by rewrite Hpw.
  - by apply consistent_add_allocation.
  - unfold consistent, workers_known, registered, allocations_of, reopen. simpl.
    rewrite start_user_pw_store.
    destruct (start_metadata sample ents mi ma e) as (_ & -> & ->). simpl.
    split; [exact Hmem|]. split; [|done].
    intros worker Hin. rewrite <- Hpw. by apply Hmem.
  - split; [exact Hsaved|]. split; [exact Hsaved|done].
Qed.

Lemma consistent_new_experiment name path : consistent (new_experiment name path).
Proof.
  split; [|split; [|done]]; intros worker Hin; by apply not_elem_of_nil in Hin.
Qed.

(** On every experiment reached from a new one, only registered workers
    have a history. *)
Lemma workers_known_reachable cs name path :
  workers_known (run_calls cs (new_experiment name path)).
Proof.
  assert (H : ∀ e, consistent e → consistent (run_calls cs e)).
  { induction cs as [|c cs IH]; intros e He; simpl; [done|].
    by apply IH, consistent_run_call. }
  apply H, consistent_new_experiment.
Qed.
End Consistency.

(** ** Registration *)

Lemma history_unknown_worker username e :
  workers_known e → ¬ registered username e → history username e = [].
Proof.
  intros Hknown Hr. unfold history.
  rewrite (proj2 (Dict_get_None_keys username (allocations_of e))); [done|].
  intros Hin. by apply Hr, Hknown.
Qed.

(** C5.  [add_user] raises [ValueError "User ... already created"] for a
    user name that is in the password store, changing nothing.  Otherwise
    it stores the password, saves the password store, and runs
    [add_allocation] once for the new user; on a started experiment with
    at least one unit, where only registered workers have histories, that
    call succeeds and the new user's history has exactly one entry. *)
Theorem add_user_registers_and_allocates username password e :
  (registered username e →
   add_user username password e
   = (Raise (ValueError ("User " +:+ username +:+ " already created")), e)) ∧
  (¬ registered username e →
   storage (user_pw_store (snd (add_user username password e))) !! username
   = Some password ∧
   saved (user_pw_store (snd (add_user username password e))) !! username
   = Some password ∧
   add_user username password e
   = add_allocation username (registering username password e) ∧
   (started e → unit_names e ≠ [] → workers_known e →
    ∃ u, fst (add_user username password e) = Ok (allocation_path e username u) ∧
         history username (snd (add_user username password e)) = [u])).
Proof.
  rewrite add_user_run. split.
  - intros Hr. by rewrite bool_decide_eq_true_2.
  - intros Hr. rewrite bool_decide_eq_false_2 by done.
    rewrite add_allocation_user_pw_store.
    split; [apply lookup_insert_eq|]. split; [apply lookup_insert_eq|].
    split; [done|].
    intros (Hus & Hm & Hnames) Hunits Hknown.
    pose proof (history_unknown_worker _ _ Hknown Hr) as Hempty.
    rewrite (add_allocation_run username (registering username password e)
               (registered_registering _ _ _) Hus Hm).
    change (selection username (registering username password e))
      with (selection username e).
    destruct (truthy (selection username e)) eqn:Ht.
    + destruct (selection username e) as [u|] eqn:Hsel; [|done].
      exists u. simpl. rewrite history_delivered, history_prepared.
      change (history username (registering username password e))
        with (history username e).
      by rewrite Hempty.
    + apply (selection_None _ _ Hnames) in Ht.
      destruct (unit_names e) as [|v names]; [done|].
      apply Forall_cons in Ht as [Hv _]. rewrite Hempty in Hv.
      by apply not_elem_of_nil in Hv.
Qed.

(** ** Order of the copies and the history mutation *)

Lemma copies_before_record source_keys (dest : string → string) user_name unit_name :
  copy_then_commit
    (map (λ k, EvCopy k (dest k)) source_keys ++ [EvRecord user_name unit_name]).
Proof.
  intros i j sk dk un nm Hi Hj.
  assert (Hlen : length (map (λ k, EvCopy k (dest k)) source_keys)
                 = length source_keys) by apply length_map.
  destruct (decide (i < length source_keys)%nat) as [Hlt|Hge].
  - destruct (decide (j < length source_keys)%nat) as [Hjlt|Hjge]; [|lia].
    rewrite lookup_app_l in Hj by lia.
    apply list_elem_of_lookup_2, list_elem_of_fmap in Hj as (k & Hk & _). done.
  - rewrite lookup_app_r in Hi by lia.
    destruct (i - length (map (λ k, EvCopy k (dest k)) source_keys))%nat
      as [|n]; simpl in Hi; done.
Qed.

(** C3, as the code has it.  A successful [add_allocation] first copies
    every listed key of the unit's directory to the user's directory and
    only then appends the unit to the user's history: the events of the
    call are the copies, in listing order, followed by the one history
    mutation. *)
Theorem add_allocation_copies_then_records user_name e dest_dir :
  fst (add_allocation user_name e) = Ok dest_dir →
  ∃ u copies,
    dest_dir = allocation_path e user_name u ∧
    copies = map (λ k, EvCopy k (replace k (unit_path e u) dest_dir))
               (listing (unit_path e u) e) ∧
    events (snd (add_allocation user_name e))
    = events e ++ copies ++ [EvRecord user_name u] ∧
    copy_then_commit (copies ++ [EvRecord user_name u]).
Proof.
  intros Hok. destruct (decide (registered user_name e)) as [Hr|Hr].
  2:{ by rewrite add_allocation_unknown in Hok. }
  destruct (add_allocation_cases user_name e Hr)
    as [[x Hx]|(u & _ & _ & _ & Hrun)].
  { by rewrite Hx in Hok. }
  rewrite Hrun in Hok |- *. simpl in Hok. injection Hok as <-.
  exists u, (map (λ k, EvCopy k (replace k (unit_path e u)
                                  (allocation_path e user_name u)))
               (listing (unit_path e u) e)).
  split; [done|]. split; [done|]. split; [done|].
  apply copies_before_record.
Qed.

(** C3 as stated fails: in the first allocation to user A the history
    mutation does not come before the copies. *)
Lemma add_allocation_not_commit_then_copy :
  fst (add_allocation "A" registered_A)
  = Ok "bucket/brat/tag/brat_config/data/.A/unit_0" ∧
  events registered_A = [] ∧
  ¬ commit_then_copy (events (snd (add_allocation "A" registered_A))).
Proof.
  split; [by vm_compute|]. split; [by vm_compute|].
  intros Hclaim.
  assert (Hlt : (4 < 0)%nat); [|lia].
  eapply (Hclaim 0%nat 4%nat); vm_compute; reflexivity.
Qed.

(** ** [str.replace] at a prefix *)

Section Replace.
Implicit Types (old new s tail : string).

Lemma string_prefix_app old tail : String.prefix old (old +:+ tail) = true.
Proof.
  induction old as [|c old IH]; simpl; [by destruct tail|].
  destruct (ascii_dec c c); [done | congruence].
Qed.

Lemma string_prefix_split old s : String.prefix old s = true → ∃ tail, s = old +:+ tail.
Proof.
  revert s. induction old as [|c old IH]; intros s.
  - intros _. by exists s.
  - destruct s as [|c' s]; simpl; [done|].
    destruct (ascii_dec c c') as [<-|]; [|done].
    intros [tail ->]%IH. by exists tail.
Qed.

Lemma replace_go_skip old new s tail :
  replace_go old new (String.length s) (s +:+ tail) = replace_go old new 0 tail.
Proof.
  induction s as [|c s IH]; simpl; [|done].
  destruct tail; reflexivity.
Qed.

Lemma replace_at_prefix old new tail :
  old ≠ "" → replace (old +:+ tail) old new = new +:+ replace tail old new.
Proof.
  intros Hold. destruct old as [|c old]; [done|]. unfold replace.
  change (String c old +:+ tail) with (String c (old +:+ tail)).
  cbn [replace_go].
  change (String c (old +:+ tail)) with (String c old +:+ tail).
  rewrite string_prefix_app.
  replace (String.length (String c old) - 1)%nat with (String.length old)
    by (simpl; lia).
  by rewrite replace_go_skip.
Qed.

Lemma string_append_assoc s1 s2 s3 : (s1 +:+ s2) +:+ s3 = s1 +:+ (s2 +:+ s3).
Proof.
  induction s1 as [|c s1 IH]; [done|].
  change (String c ((s1 +:+ s2) +:+ s3) = String c (s1 +:+ (s2 +:+ s3))).
  by rewrite IH.
Qed.
End Replace.

(** ** What a successful allocation leaves *)

Section Delivery.
Implicit Types (e : BratExperiment) (user_name unit_name : string).

Lemma copy_all_preserves dest ks (m : gmap string string) x :
  is_Some (m !! x) → is_Some (copy_all dest ks m !! x).
Proof.
  revert m. induction ks as [|k ks IH]; intros m Hx; simpl; [done|].
  apply IH. destruct (m !! k) as [content|]; [|done].
  destruct (decide (dest k = x)) as [->|Hne].
  - rewrite lookup_insert_eq. by eexists.
  - by rewrite lookup_insert_ne.
Qed.

Lemma copy_all_dest dest ks (m : gmap string string) k :
  (∀ k', k' ∈ ks → is_Some (m !! k')) → k ∈ ks →
  is_Some (copy_all dest ks m !! dest k).
Proof.
  revert m. induction ks as [|k0 ks IH]; intros m Hall Hin; [by apply not_elem_of_nil in Hin|].
  simpl. destruct (Hall k0) as [content Hk0]; [left|]. rewrite Hk0.
  apply elem_of_cons in Hin as [->|Hin].
  - apply copy_all_preserves. rewrite lookup_insert_eq. by eexists.
  - apply IH; [|done]. intros k' Hk'.
    destruct (decide (dest k0 = k')) as [->|Hne].
    + rewrite lookup_insert_eq. by eexists.
    + rewrite lookup_insert_ne by done. apply Hall. by right.
Qed.

Lemma unit_path_nonempty e unit_name : unit_path e unit_name ≠ "".
Proof.
  unfold unit_path. simpl. destruct (data_path e); done.
Qed.

(** What a successful [add_allocation] leaves: the unit is appended to the
    user's history, every listed key of the unit's directory has its
    destination key in the blob store, below the returned directory, and
    the saved metadata is as it was. *)
Lemma add_allocation_delivers user_name e dest_dir :
  fst (add_allocation user_name e) = Ok dest_dir →
  ∃ u, dest_dir = allocation_path e user_name u ∧
       (u ∉ history user_name e) ∧
       history user_name (snd (add_allocation user_name e))
       = history user_name e ++ [u] ∧
       (∀ k, k ∈ listing (unit_path e u) e →
             String.prefix dest_dir (replace k (unit_path e u) dest_dir) = true ∧
             is_Some (s3 (snd (add_allocation user_name e))
                        !! replace k (unit_path e u) dest_dir)) ∧
       saved (metadata (snd (add_allocation user_name e))) = saved (metadata e).
Proof.
  intros Hok. destruct (decide (registered user_name e)) as [Hr|Hr].
  2:{ by rewrite add_allocation_unknown in Hok. }
  destruct (add_allocation_cases user_name e Hr)
    as [[x Hx]|(u & _ & _ & Hnew & Hrun)].
  { by rewrite Hx in Hok. }
  rewrite Hrun in Hok |- *. simpl in Hok. injection Hok as <-.
  exists u. split; [done|]. split; [done|]. split.
  { simpl. by rewrite history_delivered, history_prepared. }
  split; [|done].
  intros k Hk. split.
  - apply list_elem_of_filter in Hk as [Hunder _].
    apply string_prefix_split in Hunder as [tail ->].
    rewrite string_append_assoc.
    rewrite replace_at_prefix by apply unit_path_nonempty.
    apply string_prefix_app.
  - simpl. apply (copy_all_dest (λ k, replace k (unit_path e u) (allocation_path e user_name u))).
    + intros k'. apply listing_present.
    + exact Hk.
Qed.
End Delivery.

(** ** The scenario of the spec *)

(** Five postings in units of two give unit_0, unit_1 and unit_2, the last
    with one member. *)
Example units_of_started5 :
  units_of started5
  = [("unit_0", [(0%nat, "ida"); (1%nat, "idb")]);
     ("unit_1", [(0%nat, "idc"); (1%nat, "idd")]);
     ("unit_2", [(0%nat, "ide")])].
Proof. by vm_compute. Qed.

(** A is given unit_0 on registration, B is given unit_0 as well (its
    coverage is 1 < 2), and A's next allocation is unit_1. *)
Example scenario_two_workers :
  fst (add_user "A" "pw" started5) = Ok "bucket/brat/tag/brat_config/data/.A/unit_0" ∧
  fst (add_user "B" "pw" (snd (add_user "A" "pw" started5)))
  = Ok "bucket/brat/tag/brat_config/data/.B/unit_0" ∧
  fst (add_allocation "A" allocated_AB) = Ok "bucket/brat/tag/brat_config/data/.A/unit_1" ∧
  allocations_of (snd (add_allocation "A" allocated_AB))
  = [("A", ["unit_0"; "unit_1"]); ("B", ["unit_0"])].
Proof. repeat split; by vm_compute. Qed.

(** Once A has been given the three units, the next call raises. *)
Example scenario_exhausted :
  fst (add_allocation "A"
         (snd (add_allocation "A" (snd (add_allocation "A" allocated_AB)))))
  = Raise (ValueError "No units left to allocate to user!").
Proof. by vm_compute. Qed.

(** ** Durability of an allocation *)

(** C2, at a failing input.  The first allocation to user A succeeds,
    returns A's directory for unit_0 and appends unit_0 to A's in-memory
    history, but the durable metadata still has no allocations: the
    reopened experiment has an empty history for A and hands unit_0 to A
    again. *)
Theorem add_allocation_is_not_saved :
  fst (add_allocation "A" registered_A)
  = Ok "bucket/brat/tag/brat_config/data/.A/unit_0" ∧
  history "A" allocated_A = ["unit_0"] ∧
  md_allocations (saved (metadata allocated_A)) = None ∧
  history "A" (reopen allocated_A) = [] ∧
  fst (add_allocation "A" (reopen allocated_A))
  = Ok "bucket/brat/tag/brat_config/data/.A/unit_0".
Proof. repeat split; by vm_compute. Qed.

(** ** Partitioning *)

Lemma chunk_sizes (n size i : nat) :
  (1 ≤ size)%nat → (1 ≤ n)%nat →
  (S i < (n + size - 1) / size →
   size `min` (n - i * size) = size)%nat ∧
  (S i = (n + size - 1) / size →
   size `min` (n - i * size) = if decide (n `mod` size = 0) then size else n `mod` size)%nat.
Proof.
  intros Hsize Hn.
  pose proof (Nat.div_mod_eq (n + size - 1) size) as Hq.
  pose proof (Nat.mod_upper_bound (n + size - 1) size ltac:(lia)) as Hr.
  pose proof (Nat.div_mod_eq n size) as Hq'.
  pose proof (Nat.mod_upper_bound n size ltac:(lia)) as Hr'.
  set (q := ((n + size - 1) / size)%nat) in *.
  set (r := ((n + size - 1) `mod` size)%nat) in *.
  set (q' := (n / size)%nat) in *.
  set (r' := (n `mod` size)%nat) in *.
  split; intros Hi.
  - assert ((S i + 1) * size ≤ q * size)%nat by (apply Nat.mul_le_mono_r; lia).
    nia.
  - destruct (decide (r' = 0%nat)) as [Hz|Hnz].
    + assert (q = q') by nia. nia.
    + assert (q = S q') by nia. nia.
Qed.

(** C6.  For a non-empty sample of N postings and a unit size S >= 1,
    [start] succeeds and records exactly ceil(N/S) units, named unit_0,
    unit_1, ... in order; every unit but the last has S members, and the
    last has N mod S members, or S when S divides N. *)
Theorem start_partitions sample entities minimum maximum e :
  Sample.postings sample ≠ [] →
  (1 ≤ maximum)%Z →
  fst (start sample entities minimum maximum e) = Ok tt ∧
  Z.of_nat (length (units_of (snd (start sample entities minimum maximum e))))
  = ((Z.of_nat (length (Sample.postings sample)) + maximum - 1) `div` maximum)%Z ∧
  ∀ (i : nat) unit_name members,
    units_of (snd (start sample entities minimum maximum e)) !! i
    = Some (unit_name, members) →
    unit_name = unit_name_of i ∧
    ((S i < length (units_of (snd (start sample entities minimum maximum e))))%nat →
     Z.of_nat (length members) = maximum) ∧
    (S i = length (units_of (snd (start sample entities minimum maximum e))) →
     Z.of_nat (length members)
     = if decide (Z.of_nat (length (Sample.postings sample)) `mod` maximum = 0)%Z
       then maximum
       else (Z.of_nat (length (Sample.postings sample)) `mod` maximum)%Z).
Proof.
  intros Hne Hmax. rewrite start_units_of, length_unit_entries.
  split; [apply start_metadata|].
  set (l := Sample.postings sample) in *.
  set (size := Z.to_nat maximum).
  assert (Hsize : (1 ≤ size)%nat) by (unfold size; lia).
  assert (Hmaximum : maximum = Z.of_nat size) by (unfold size; lia).
  assert (Hn : (1 ≤ length l)%nat) by (destruct l; [done | simpl; lia]).
  rewrite Hmaximum, Batch_length by done.
  split.
  - rewrite Nat2Z.inj_div. f_equal. lia.
  - intros i unit_name members Hi.
    apply lookup_unit_entries in Hi as (batch & Hbatch & -> & ->).
    split; [done|]. rewrite length_members_from.
    rewrite (Batch_lookup_length _ _ _ _ Hsize Hbatch).
    destruct (chunk_sizes (length l) size i Hsize Hn) as [Hfull Hlast].
    split.
    + intros Hlt. by rewrite Hfull.
    + intros Heq. rewrite Hlast by done.
      rewrite <- Nat2Z.inj_mod.
      destruct (decide (length l `mod` size = 0)%nat) as [Hz|Hnz].
      * rewrite decide_True by lia. done.
      * rewrite decide_False by lia. done.
Qed.

(** C7, as the code has it.  [start] does not check its arguments.  On a
    sample without postings it succeeds, whatever the unit size (also one
    below 1), and stores and saves an empty units dictionary: no unit is
    created. *)
Theorem start_empty_sample sample entities minimum maximum e :
  Sample.postings sample = [] →
  fst (start sample entities minimum maximum e) = Ok tt ∧
  md_units (storage (metadata (snd (start sample entities minimum maximum e))))
  = Some [] ∧
  md_units (saved (metadata (snd (start sample entities minimum maximum e))))
  = Some [].
Proof.
  intros Hempty.
  destruct (start_metadata sample entities minimum maximum e) as (-> & -> & ->).
  unfold started_metadata. rewrite Hempty. simpl. done.
Qed.

(** C7 as stated fails: [start] on the empty sample raises nothing, with a
    unit size of 10 and with a unit size of 0. *)
Lemma start_empty_sample_succeeds :
  Sample.postings sample0 = [] ∧
  fst (start sample0 [("c", "Competency")] 2 10 fresh) = Ok tt ∧
  fst (start sample0 [("c", "Competency")] 2 0 fresh) = Ok tt.
Proof. repeat split; by vm_compute. Qed.

(** C8, as the code has it.  [start] does not look for existing units.
    Called on an experiment that already has units it succeeds again,
    overwrites the configuration with its arguments and replaces the units
    by the partition of the sample it is given; the saved metadata follows.
    The allocations are kept. *)
Theorem start_again_overwrites sample entities minimum maximum e :
  is_Some (md_units (storage (metadata e))) →
  fst (start sample entities minimum maximum e) = Ok tt ∧
  storage (metadata (snd (start sample entities minimum maximum e)))
  = mkMetadata (Some (Sample.base_path sample)) (Some (Sample.name sample))
      (Some entities) (Some minimum) (Some maximum)
      (Some (unit_entries 0 (Batch (Sample.postings sample) maximum)))
      (md_allocations (storage (metadata e))) ∧
  saved (metadata (snd (start sample entities minimum maximum e)))
  = storage (metadata (snd (start sample entities minimum maximum e))).
Proof.
  intros _.
  destruct (start_metadata sample entities minimum maximum e) as (-> & -> & ->).
  done.
Qed.

(** C8 as stated fails: a second [start] on the started experiment, with
    another sample, raises nothing and changes the units and the
    configuration. *)
Lemma start_twice_succeeds :
  is_Some (md_units (storage (metadata started5))) ∧
  fst (start sample0 [] 1 1 started5) = Ok tt ∧
  md_units (storage (metadata (snd (start sample0 [] 1 1 started5))))
  ≠ md_units (storage (metadata started5)) ∧
  md_minimum_annotations_per_posting
    (storage (metadata (snd (start sample0 [] 1 1 started5))))
  ≠ md_minimum_annotations_per_posting (storage (metadata started5)).
Proof.
  split; [vm_compute; by eexists|]. split; [by vm_compute|].
  split; vm_compute; discriminate.
Qed.

(** ** The properties at the small experiment *)

Lemma started_started5 : started started5.
Proof. apply start_started. Defined.

Lemma started_allocated_AB : started allocated_AB.
Proof. apply (bool_decide_unpack _). by vm_compute. Defined.

Lemma registered_A_allocated_AB : registered "A" allocated_AB.
Proof. apply (bool_decide_unpack _). by vm_compute. Defined.

Lemma histories_distinct_fresh : histories_distinct fresh.
Proof. intros worker. split; apply NoDup_nil_2. Defined.

(** unit_0 has its two annotators, so A, who has seen it, is given unit_1. *)
Lemma add_allocation_two_tier_witness :
  registered "A" allocated_AB ∧ started allocated_AB ∧
  first_in_order
    (λ v, (v ∉ history "A" allocated_AB) ∧ needs_more_coverage allocated_AB v)
    (unit_names allocated_AB) "unit_1" ∧
  fst (add_allocation "A" allocated_AB) = Ok (allocation_path allocated_AB "A" "unit_1") ∧
  history "A" (snd (add_allocation "A" allocated_AB))
  = history "A" allocated_AB ++ ["unit_1"] ∧
  registered "A" unstarted_A ∧
  md_units (storage (metadata unstarted_A)) = None ∧
  fst (add_allocation "A" unstarted_A) = Raise (KeyError "units").
Proof.
  assert (Hr0 : registered "A" unstarted_A)
    by (apply (bool_decide_unpack _); by vm_compute).
  assert (Hu0 : md_units (storage (metadata unstarted_A)) = None) by (by vm_compute).
  assert (Hfirst : first_in_order
            (λ v, (v ∉ history "A" allocated_AB) ∧ needs_more_coverage allocated_AB v)
            (unit_names allocated_AB) "unit_1").
  { exists 1%nat. split; [by vm_compute|]. split.
    - apply (bool_decide_unpack _). by vm_compute.
    - intros j v Hj Hlt. destruct j as [|j]; [|lia].
      vm_compute in Hj. injection Hj as <-. intros [Hnew _]. apply Hnew.
      apply (bool_decide_unpack _). by vm_compute. }
  split; [exact registered_A_allocated_AB|]. split; [exact started_allocated_AB|].
  split; [exact Hfirst|].
  destruct (proj1 (proj1 (add_allocation_two_tier "A" allocated_AB
                            registered_A_allocated_AB) started_allocated_AB)
              "unit_1" Hfirst) as [Hok Hhistory].
  split; [exact Hok|]. split; [exact Hhistory|].
  split; [exact Hr0|]. split; [exact Hu0|].
  exact (proj2 (add_allocation_two_tier "A" unstarted_A Hr0) Hu0).
Defined.

Lemma add_allocation_copies_then_records_witness :
  fst (add_allocation "A" registered_A)
  = Ok "bucket/brat/tag/brat_config/data/.A/unit_0" ∧
  ∃ u copies,
    "bucket/brat/tag/brat_config/data/.A/unit_0" = allocation_path registered_A "A" u ∧
    copies = map (λ k, EvCopy k (replace k (unit_path registered_A u)
                                   "bucket/brat/tag/brat_config/data/.A/unit_0"))
               (listing (unit_path registered_A u) registered_A) ∧
    events (snd (add_allocation "A" registered_A))
    = events registered_A ++ copies ++ [EvRecord "A" u] ∧
    copy_then_commit (copies ++ [EvRecord "A" u]).
Proof.
  assert (Hok : fst (add_allocation "A" registered_A)
                = Ok "bucket/brat/tag/brat_config/data/.A/unit_0") by (by vm_compute).
  split; [exact Hok|].
  exact (add_allocation_copies_then_records "A" registered_A _ Hok).
Defined.

Lemma histories_never_repeat_witness :
  histories_distinct fresh ∧ registered "A" allocated_AB ∧ started allocated_AB ∧
  (∀ worker,
     NoDup (history worker
              (run_calls [CallStart sample5 [("c", "Competency")] 2 2;
                          CallAddUser "A" "pw"; CallAddUser "B" "pw";
                          CallAddAllocation "A"; CallReopen] fresh))) ∧
  ((∃ u, (u ∉ history "A" allocated_AB) ∧ u ∈ unit_names allocated_AB ∧
         fst (add_allocation "A" allocated_AB) = Ok (allocation_path allocated_AB "A" u) ∧
         history "A" (snd (add_allocation "A" allocated_AB))
         = history "A" allocated_AB ++ [u])
   ∨ (fst (add_allocation "A" allocated_AB)
      = Raise (ValueError "No units left to allocate to user!") ∧
      history "A" (snd (add_allocation "A" allocated_AB)) = history "A" allocated_AB ∧
      Forall (λ v, v ∈ history "A" allocated_AB) (unit_names allocated_AB))) ∧
  registered "A" unstarted_A ∧
  md_units (storage (metadata unstarted_A)) = None ∧
  fst (add_allocation "A" unstarted_A) = Raise (KeyError "units") ∧
  history "A" (snd (add_allocation "A" unstarted_A)) = history "A" unstarted_A.
Proof.
  assert (Hr0 : registered "A" unstarted_A)
    by (apply (bool_decide_unpack _); by vm_compute).
  assert (Hu0 : md_units (storage (metadata unstarted_A)) = None) by (by vm_compute).
  split; [exact histories_distinct_fresh|].
  split; [exact registered_A_allocated_AB|]. split; [exact started_allocated_AB|].
  split.
  - exact (proj1 (histories_never_repeat _ fresh "A" allocated_AB)
             histories_distinct_fresh).
  - split.
    + exact (proj1 (proj2 (proj2 (histories_never_repeat [] fresh "A" allocated_AB)))
               registered_A_allocated_AB started_allocated_AB).
    + split; [exact Hr0|]. split; [exact Hu0|].
      exact (proj2 (proj2 (proj2 (histories_never_repeat [] fresh "A" unstarted_A)))
               Hr0 Hu0).
Defined.

Lemma add_user_registers_and_allocates_witness :
  registered "A" registered_A ∧
  add_user "A" "other" registered_A
  = (Raise (ValueError "User A already created"), registered_A) ∧
  ¬ registered "A" started5 ∧ started started5 ∧ unit_names started5 ≠ [] ∧
  workers_known started5 ∧
  saved (user_pw_store (snd (add_user "A" "pw" started5))) !! "A" = Some "pw" ∧
  ∃ u, fst (add_user "A" "pw" started5) = Ok (allocation_path started5 "A" u) ∧
       history "A" (snd (add_user "A" "pw" started5)) = [u].
Proof.
  assert (Hr : registered "A" registered_A)
    by (apply (bool_decide_unpack _); by vm_compute).
  assert (Hn : ¬ registered "A" started5)
    by (apply (bool_decide_unpack _); by vm_compute).
  assert (Hu : unit_names started5 ≠ []) by (by vm_compute).
  assert (Hk : workers_known started5).
  { intros worker Hin. vm_compute in Hin. by apply not_elem_of_nil in Hin. }
  split; [exact Hr|].
  split; [exact (proj1 (add_user_registers_and_allocates "A" "other" registered_A) Hr)|].
  split; [exact Hn|]. split; [exact started_started5|].
  split; [exact Hu|]. split; [exact Hk|].
  destruct (proj2 (add_user_registers_and_allocates "A" "pw" started5) Hn)
    as (_ & Hsaved & _ & Hone).
  split; [exact Hsaved|]. exact (Hone started_started5 Hu Hk).
Defined.

Lemma start_partitions_witness :
  Sample.postings sample5 ≠ [] ∧ (1 ≤ 2)%Z ∧
  fst (start sample5 [("c", "Competency")] 2 2 fresh) = Ok tt ∧
  Z.of_nat (length (units_of started5)) = ((5 + 2 - 1) `div` 2)%Z.
Proof.
  assert (Hne : Sample.postings sample5 ≠ []) by done.
  assert (Hsize : (1 ≤ 2)%Z) by lia.
  split; [exact Hne|]. split; [exact Hsize|].
  destruct (start_partitions sample5 [("c", "Competency")] 2 2 fresh Hne Hsize)
    as (Hok & Hcount & _).
  split; [exact Hok | exact Hcount].
Defined.

Lemma start_empty_sample_witness :
  Sample.postings sample0 = [] ∧
  fst (start sample0 [("c", "Competency")] 2 10 fresh) = Ok tt ∧
  md_units (storage (metadata (snd (start sample0 [("c", "Competency")] 2 10 fresh))))
  = Some [] ∧
  md_units (saved (metadata (snd (start sample0 [("c", "Competency")] 2 10 fresh))))
  = Some [].
Proof.
  split; [reflexivity|].
  exact (start_empty_sample sample0 [("c", "Competency")] 2 10 fresh eq_refl).
Defined.

Lemma start_again_overwrites_witness :
  is_Some (md_units (storage (metadata started5))) ∧
  fst (start sample0 [] 1 1 started5) = Ok tt ∧
  md_units (storage (metadata (snd (start sample0 [] 1 1 started5)))) = Some [].
Proof.
  assert (Hunits : is_Some (md_units (storage (metadata started5))))
    by (apply (bool_decide_unpack _); by vm_compute).
  split; [exact Hunits|].
  destruct (start_again_overwrites sample0 [] 1 1 started5 Hunits) as (Hok & Hmd & _).
  split; [exact Hok|]. rewrite Hmd. reflexivity.
Defined.

Lemma add_allocation_unknown_user_witness :
  ¬ registered "Z" started5 ∧
  fst (add_allocation "Z" started5)
  = Raise (ValueError "Username not in user-password store. Please call add_user first")
  ∧ snd (add_allocation "Z" started5) = started5.
Proof.
  assert (Hn : ¬ registered "Z" started5)
    by (apply (bool_decide_unpack _); by vm_compute).
  split; [exact Hn|]. exact (add_allocation_unknown_user "Z" started5 Hn).
Defined.

Lemma needs_allocation_uninitialized_witness :
  md_allocations (storage (metadata started5)) = None ∧
  needs_allocation "unit_0" started5 = (Raise (KeyError "allocations"), started5).
Proof.
  assert (Hnone : md_allocations (storage (metadata started5)) = None)
    by (by vm_compute).
  split; [exact Hnone|].
  exact (proj1 (needs_allocation_uninitialized "unit_0" started5) Hnone).
Defined.

(** * Further properties of the code *)

(** ** How a call of [add_allocation] can end *)

Section Outcomes.
Implicit Types (e : BratExperiment) (user_name worker unit_name : string).

Lemma add_allocation_outcome user_name e :
  add_allocation user_name e
  = (Raise (ValueError "Username not in user-password store. Please call add_user first"), e)
  ∨ (registered user_name e ∧
     ∃ x, add_allocation user_name e = (Raise x, prepared user_name e))
  ∨ (registered user_name e ∧
     ∃ u, (u ∉ history user_name e) ∧ u ∈ unit_names e ∧
          add_allocation user_name e
          = (Ok (allocation_path e user_name u),
             delivered user_name u (prepared user_name e))).
Proof.
  destruct (decide (registered user_name e)) as [Hr|Hr].
  - right. destruct (add_allocation_cases user_name e Hr)
      as [[x Hx]|(u & _ & Hin & Hnew & Hrun)]; [left|right]; eauto 6.
  - left. by apply add_allocation_unknown.
Qed.

Lemma add_allocation_history_prefix user_name worker e :
  history worker e `prefix_of` history worker (snd (add_allocation user_name e)).
Proof.
  destruct (add_allocation_outcome user_name e)
    as [->|[(_ & x & ->)|(_ & u & _ & _ & ->)]]; simpl.
  - done.
  - by rewrite history_prepared_any.
  - destruct (decide (user_name = worker)) as [<-|Hne].
    + rewrite history_delivered, history_prepared. by apply prefix_app_r.
    + by rewrite history_delivered_ne, history_prepared_any.
Qed.

Lemma add_allocation_metadata user_name e :
  configuration_and_units (storage (metadata (snd (add_allocation user_name e))))
  = configuration_and_units (storage (metadata e)) ∧
  saved (metadata (snd (add_allocation user_name e))) = saved (metadata e).
Proof.
  destruct (add_allocation_outcome user_name e)
    as [->|[(_ & x & ->)|(_ & u & _ & _ & ->)]]; done.
Qed.

Lemma add_allocation_registered user_name worker e :
  registered worker (snd (add_allocation user_name e)) ↔ registered worker e.
Proof. unfold registered. by rewrite add_allocation_user_pw_store. Qed.

Lemma unit_names_configuration e e' :
  configuration_and_units (storage (metadata e'))
  = configuration_and_units (storage (metadata e)) →
  unit_names e' = unit_names e ∧
  md_minimum_annotations_per_posting (storage (metadata e'))
  = md_minimum_annotations_per_posting (storage (metadata e)) ∧
  md_units (storage (metadata e')) = md_units (storage (metadata e)).
Proof.
  unfold configuration_and_units, unit_names, units_of.
  intros [= _ _ _ Hm _ Hu]. by rewrite Hu, Hm.
Qed.

Lemma run_call_allocation_metadata c e :
  allocation_call c →
  configuration_and_units (storage (metadata (run_call c e)))
  = configuration_and_units (storage (metadata e)) ∧
  saved (metadata (run_call c e)) = saved (metadata e).
Proof.
  destruct c as [username password|user_name| |]; simpl; try done; intros _.
  - rewrite add_user_run. case_bool_decide; [done|].
    apply (add_allocation_metadata username (registering username password e)).
  - apply add_allocation_metadata.
Qed.

Lemma run_call_registered c worker e :
  registered worker e → registered worker (run_call c e) ∨ c = CallReopen.
Proof.
  intros Hr. destruct c as [username password|user_name|sample ents mi ma|]; simpl.
  - left. rewrite add_user_run. case_bool_decide; [done|].
    apply add_allocation_registered. unfold registered, registering. simpl.
    destruct (decide (username = worker)) as [->|Hne].
    + rewrite lookup_insert_eq. by eexists.
    + by rewrite lookup_insert_ne.
  - left. by apply add_allocation_registered.
  - left. unfold registered. by rewrite start_user_pw_store.
  - by right.
Qed.

Lemma run_call_history_prefix c worker e :
  same_object_call c →
  history worker e `prefix_of` history worker (run_call c e).
Proof.
  destruct c as [username password|user_name|sample ents mi ma|]; simpl;
    try done; intros _.
  - rewrite add_user_run. case_bool_decide; [done|].
    apply (add_allocation_history_prefix username worker
             (registering username password e)).
  - apply add_allocation_history_prefix.
  - unfold history, allocations_of. by rewrite start_allocations.
Qed.

Lemma allocation_call_same_object c : allocation_call c → same_object_call c.
Proof. by destruct c. Qed.

Lemma run_calls_cons c cs e : run_calls (c :: cs) e = run_calls cs (run_call c e).
Proof. reflexivity. Qed.
End Outcomes.

(** ** Calls on an experiment without units *)

(** X1.  For a user in the password store of an experiment whose metadata
    has no ['units'] key, [add_allocation] raises [KeyError 'units'], and by
    then it has created the allocations and the user's empty history. *)
Theorem add_allocation_before_start user_name e :
  registered user_name e →
  md_units (storage (metadata e)) = None →
  fst (add_allocation user_name e) = Raise (KeyError "units") ∧
  user_name ∈ Dict.keys (allocations_of (snd (add_allocation user_name e))) ∧
  history user_name (snd (add_allocation user_name e)) = history user_name e ∧
  is_Some (md_allocations (storage (metadata (snd (add_allocation user_name e))))).
Proof.
  intros Hr Hunits.
  assert (Hrun : add_allocation user_name e
                 = (Raise (KeyError "units"), prepared user_name e)).
  { unfold add_allocation. run. rewrite bool_decide_eq_true_2 by done. simpl.
    rewrite initialize_allocations_run. unfold choose_unit. run.
    destruct e as [? ? [[] ?] ? ? ?]. simpl in *. by rewrite Hunits. }
  rewrite Hrun. simpl. split; [done|]. split; [|split; [|by eexists]].
  - unfold allocations_of. rewrite allocations_of_prepared. simpl.
    apply dec_stable. intros Hnot%Dict_get_None_keys.
    by rewrite get_prepared_allocations in Hnot.
  - apply history_prepared.
Qed.

(** X2.  A registration is not undone when the chained allocation fails.
    After [add_user] for a new user name, whether the allocation succeeded
    or raised, the name is in the password store, in memory and saved, and
    registering it again raises "already created" and changes nothing. *)
Theorem add_user_not_rolled_back username password again e :
  ¬ registered username e →
  storage (user_pw_store (snd (add_user username password e))) !! username
  = Some password ∧
  saved (user_pw_store (snd (add_user username password e))) !! username
  = Some password ∧
  add_user username again (snd (add_user username password e))
  = (Raise (ValueError ("User " +:+ username +:+ " already created")),
     snd (add_user username password e)).
Proof.
  intros Hr.
  assert (Hpw : user_pw_store (snd (add_user username password e))
                = user_pw_store (registering username password e)).
  { rewrite add_user_run, bool_decide_eq_false_2 by done.
    apply add_allocation_user_pw_store. }
  rewrite Hpw. split; [apply lookup_insert_eq|]. split; [apply lookup_insert_eq|].
  rewrite (add_user_run username again). rewrite bool_decide_eq_true_2; [done|].
  unfold registered. rewrite Hpw. apply registered_registering.
Qed.

(** ** Runs of allocation calls *)

Section Runs.
Implicit Types (e : BratExperiment) (cs : list call) (worker : string).

Lemma run_calls_allocation_metadata cs e :
  Forall allocation_call cs →
  configuration_and_units (storage (metadata (run_calls cs e)))
  = configuration_and_units (storage (metadata e)) ∧
  saved (metadata (run_calls cs e)) = saved (metadata e).
Proof.
  revert e. induction cs as [|c cs IH]; intros e Hcs; [done|].
  apply Forall_cons in Hcs as [Hc Hcs]. rewrite run_calls_cons.
  destruct (IH (run_call c e) Hcs) as [-> ->].
  by apply run_call_allocation_metadata.
Qed.

Lemma run_calls_history_prefix cs worker e :
  Forall same_object_call cs →
  history worker e `prefix_of` history worker (run_calls cs e).
Proof.
  revert e. induction cs as [|c cs IH]; intros e Hcs; [done|].
  apply Forall_cons in Hcs as [Hc Hcs]. rewrite run_calls_cons.
  etrans; [by apply run_call_history_prefix | by apply IH].
Qed.

Lemma run_calls_registered cs worker e :
  Forall same_object_call cs →
  registered worker e → registered worker (run_calls cs e).
Proof.
  revert e. induction cs as [|c cs IH]; intros e Hcs Hr; [done|].
  apply Forall_cons in Hcs as [Hc Hcs]. rewrite run_calls_cons.
  apply IH; [done|].
  destruct (run_call_registered c worker e Hr) as [?| ->]; done.
Qed.

Lemma run_calls_started cs e :
  Forall allocation_call cs → started e → started (run_calls cs e).
Proof.
  intros Hcs (Hus & Hm & Hnames).
  destruct (run_calls_allocation_metadata cs e Hcs) as [Hconf _].
  apply unit_names_configuration in Hconf as (Hn & Hmin & Hunits).
  unfold started. by rewrite Hn, Hmin, Hunits.
Qed.
End Runs.

(** X3.  Exhaustion is final.  Once every unit is in a registered worker's
    history, [add_allocation] for that worker raises "No units left", and
    it still does after any further calls of [add_user] and
    [add_allocation], for this worker or for others. *)
Theorem exhausted_stays_exhausted cs user_name e :
  registered user_name e →
  started e →
  Forall (λ v, v ∈ history user_name e) (unit_names e) →
  Forall allocation_call cs →
  fst (add_allocation user_name (run_calls cs e))
  = Raise (ValueError "No units left to allocate to user!").
Proof.
  intros Hr Hs Hall Hcs.
  pose proof (run_calls_started cs e Hcs Hs) as (Hus & Hm & _).
  assert (Hobj : Forall same_object_call cs).
  { eapply Forall_impl; [exact Hcs | apply allocation_call_same_object]. }
  rewrite (add_allocation_run _ _ (run_calls_registered cs _ _ Hobj Hr) Hus Hm).
  rewrite selection_exhausted; [done|].
  destruct (run_calls_allocation_metadata cs e Hcs) as [Hconf _].
  apply unit_names_configuration in Hconf as (-> & _ & _).
  eapply Forall_impl; [exact Hall|]. simpl. intros v Hv.
  eapply elem_of_prefix; [exact Hv | by apply run_calls_history_prefix].
Qed.

(** X4.  Histories are append-only.  Over any calls of [add_user],
    [add_allocation] and [start] on one experiment object, what a worker's
    history held stays where it was: the old history is a prefix of the new
    one. *)
Theorem histories_append_only cs worker e :
  Forall same_object_call cs →
  history worker e `prefix_of` history worker (run_calls cs e).
Proof. apply run_calls_history_prefix. Qed.

(** X5.  [add_user] and [add_allocation] never change the configuration,
    the units or the saved metadata, whatever their outcome. *)
Theorem allocation_calls_keep_units cs e :
  Forall allocation_call cs →
  configuration_and_units (storage (metadata (run_calls cs e)))
  = configuration_and_units (storage (metadata e)) ∧
  unit_names (run_calls cs e) = unit_names e ∧
  saved (metadata (run_calls cs e)) = saved (metadata e).
Proof.
  intros Hcs. destruct (run_calls_allocation_metadata cs e Hcs) as [Hconf Hsaved].
  split; [done|]. split; [|done]. by apply unit_names_configuration in Hconf as (-> & _).
Qed.

(** X6.  A stored password is never overwritten: a user whose password is
    in the password store, in memory and saved, has the same password after
    any calls, registrations under the same name and reopening included. *)
Theorem passwords_never_overwritten cs username password e :
  storage (user_pw_store e) !! username = Some password →
  saved (user_pw_store e) !! username = Some password →
  storage (user_pw_store (run_calls cs e)) !! username = Some password ∧
  saved (user_pw_store (run_calls cs e)) !! username = Some password.
Proof.
  revert e. induction cs as [|c cs IH]; intros e Hmem Hsaved; [done|].
  rewrite run_calls_cons. apply IH;
    destruct c as [other pw|user_name|sample ents mi ma|]; simpl;
    rewrite ?add_allocation_user_pw_store, ?start_user_pw_store; try done.
  - rewrite add_user_run. case_bool_decide as Hother; [done|].
    rewrite add_allocation_user_pw_store. simpl.
    rewrite lookup_insert_ne; [done|]. intros ->. apply Hother. by eexists.
  - rewrite add_user_run. case_bool_decide as Hother; [done|].
    rewrite add_allocation_user_pw_store. simpl.
    rewrite lookup_insert_ne; [done|]. intros ->. apply Hother. by eexists.
Qed.

(** ** The directory of an allocation *)

Lemma allocation_path_inj e user_name u v :
  allocation_path e user_name u = allocation_path e user_name v → u = v.
Proof.
  unfold allocation_path. simpl. intros H.
  apply (inj (String.app _)) in H. by apply (inj (String.app _)) in H.
Qed.

(** X7.  A successful [add_allocation] returns a directory the user did
    not have: it differs from the allocation directory of every unit in the
    user's history. *)
Theorem add_allocation_new_directory user_name e dest_dir :
  fst (add_allocation user_name e) = Ok dest_dir →
  ∀ u, u ∈ history user_name e → dest_dir ≠ allocation_path e user_name u.
Proof.
  intros Hok u Hu.
  destruct (add_allocation_outcome user_name e)
    as [Hrun|[(_ & x & Hrun)|(_ & v & Hnew & _ & Hrun)]];
    rewrite Hrun in Hok; simpl in Hok; try done.
  injection Hok as <-. intros ->%allocation_path_inj. done.
Qed.

(** ** Coverage across calls *)

Section Coverage.
Implicit Types (e : BratExperiment) (user_name unit_name : string).
Implicit Types (a : list (string * list string)) (h : list string).

Lemma coverage_set_append a user_name h u v :
  Dict.get user_name a = Some h → u ∉ h →
  coverage (Dict.set user_name (h ++ [u]) a) v
  = (coverage a v + if decide (v = u) then 1 else 0)%nat.
Proof.
  unfold coverage, Dict.values. intros Hget Hnew.
  induction a as [|[k l] a IH]; [done|].
  cbn [Dict.get] in Hget. cbn [Dict.set].
  destruct (decide (user_name = k)) as [->|Hne].
  - injection Hget as ->. rewrite !fmap_cons. cbn [snd].
    destruct (decide (v = u)) as [->|Hvu].
    + rewrite filter_cons_True by (apply elem_of_app; right; by left).
      rewrite (filter_cons_False _ h) by done. cbn [length]. lia.
    + destruct (decide (v ∈ h)) as [Hin|Hout].
      * rewrite filter_cons_True by (apply elem_of_app; by left).
        rewrite (filter_cons_True _ h) by done. cbn [length]. lia.
      * rewrite filter_cons_False.
        2:{ rewrite elem_of_app, list_elem_of_singleton. tauto. }
        rewrite (filter_cons_False _ h) by done. lia.
  - rewrite !fmap_cons. cbn [snd]. specialize (IH Hget).
    destruct (decide (v ∈ l)) as [Hin|Hout].
    + rewrite !(filter_cons_True _ l) by done. cbn [length]. lia.
    + rewrite !(filter_cons_False _ l) by done. exact IH.
Qed.

Lemma coverage_delivered user_name u v e :
  u ∉ history user_name e →
  coverage (allocations_of (delivered user_name u (prepared user_name e))) v
  = (coverage (allocations_of e) v + if decide (v = u) then 1 else 0)%nat.
Proof.
  intros Hnew.
  change (allocations_of (delivered user_name u (prepared user_name e)))
    with (Dict.set user_name (history user_name (prepared user_name e) ++ [u])
            (prepared_allocations user_name e)).
  rewrite history_prepared.
  rewrite (coverage_set_append _ _ _ _ _ (get_prepared_allocations user_name e) Hnew).
  by rewrite coverage_prepared.
Qed.

Lemma coverage_add_allocation_le user_name v e :
  (coverage (allocations_of e) v
   ≤ coverage (allocations_of (snd (add_allocation user_name e))) v)%nat.
Proof.
  destruct (add_allocation_outcome user_name e)
    as [->|[(_ & x & ->)|(_ & u & Hnew & _ & ->)]]; simpl.
  - done.
  - change (allocations_of (prepared user_name e))
      with (prepared_allocations user_name e).
    by rewrite coverage_prepared.
  - rewrite coverage_delivered by done. lia.
Qed.

Lemma coverage_run_calls_le cs v e :
  Forall allocation_call cs →
  (coverage (allocations_of e) v ≤ coverage (allocations_of (run_calls cs e)) v)%nat.
Proof.
  revert e. induction cs as [|c cs IH]; intros e Hcs; [done|].
  apply Forall_cons in Hcs as [Hc Hcs]. rewrite run_calls_cons.
  etrans; [|by apply IH].
  destruct c as [username password|user_name| |]; simpl; try done.
  - rewrite add_user_run. case_bool_decide; [done|].
    apply (coverage_add_allocation_le username v (registering username password e)).
  - apply coverage_add_allocation_le.
Qed.
End Coverage.

(** X8.  A successful [add_allocation] raises the coverage of the unit it
    hands out by exactly one and leaves the coverage of every other unit as
    it was. *)
Theorem add_allocation_coverage user_name e dest_dir :
  fst (add_allocation user_name e) = Ok dest_dir →
  ∃ u, dest_dir = allocation_path e user_name u ∧
       ∀ v, coverage (allocations_of (snd (add_allocation user_name e))) v
            = (coverage (allocations_of e) v + if decide (v = u) then 1 else 0)%nat.
Proof.
  intros Hok.
  destruct (add_allocation_outcome user_name e)
    as [Hrun|[(_ & x & Hrun)|(_ & u & Hnew & _ & Hrun)]];
    rewrite Hrun in Hok |- *; simpl in Hok; try done.
  injection Hok as <-. exists u. split; [done|].
  intros v. simpl. by apply coverage_delivered.
Qed.

(** X9.  Coverage never decreases over calls of [add_user] and
    [add_allocation], so a unit that does not need more coverage never
    needs it again. *)
Theorem coverage_target_stays_met cs unit_name e :
  Forall allocation_call cs →
  (coverage (allocations_of e) unit_name
   ≤ coverage (allocations_of (run_calls cs e)) unit_name)%nat ∧
  (¬ needs_more_coverage e unit_name →
   ¬ needs_more_coverage (run_calls cs e) unit_name).
Proof.
  intros Hcs. pose proof (coverage_run_calls_le cs unit_name e Hcs) as Hle.
  split; [done|]. unfold needs_more_coverage.
  destruct (run_calls_allocation_metadata cs e Hcs) as [Hconf _].
  apply unit_names_configuration in Hconf as (_ & -> & _).
  destruct (md_minimum_annotations_per_posting (storage (metadata e))); [lia|done].
Qed.

(** ** Histories hold units only *)

Section Within.
Implicit Types (e : BratExperiment) (user_name worker : string).

Lemma histories_within_add_allocation user_name e :
  (∀ worker, history worker e ⊆ unit_names e) →
  ∀ worker, history worker (snd (add_allocation user_name e)) ⊆ unit_names e.
Proof.
  intros Hin worker.
  destruct (add_allocation_outcome user_name e)
    as [->|[(_ & x & ->)|(_ & u & _ & Hu & ->)]]; simpl.
  - apply Hin.
  - rewrite history_prepared_any. apply Hin.
  - destruct (decide (user_name = worker)) as [<-|Hne].
    + rewrite history_delivered, history_prepared.
      intros v [Hv| ->%list_elem_of_singleton]%elem_of_app; [exact (Hin _ v Hv) | done].
    + rewrite history_delivered_ne, history_prepared_any by done. apply Hin.
Qed.

Lemma histories_within_run_calls cs e :
  Forall allocation_call cs →
  (∀ worker, history worker e ⊆ unit_names e) →
  ∀ worker, history worker (run_calls cs e) ⊆ unit_names e.
Proof.
  revert e. induction cs as [|c cs IH]; intros e Hcs Hin; [done|].
  apply Forall_cons in Hcs as [Hc Hcs]. rewrite run_calls_cons.
  destruct (run_call_allocation_metadata c e Hc) as [Hconf _].
  apply unit_names_configuration in Hconf as (Hnames & _).
  rewrite <- Hnames. apply IH; [done|]. rewrite Hnames.
  destruct c as [username password|user_name| |]; simpl; try done.
  - rewrite add_user_run. case_bool_decide; [done|].
    apply (histories_within_add_allocation username (registering username password e)).
    exact Hin.
  - by apply histories_within_add_allocation.
Qed.
End Within.

(** X10.  A worker is never given more allocations than there are units:
    from a state whose histories are duplicate-free and hold unit names
    only, any calls of [add_user] and [add_allocation] leave every history
    within the unit names and no longer than the number of units. *)
Theorem history_bounded_by_units cs worker e :
  histories_distinct e →
  (∀ w, history w e ⊆ unit_names e) →
  Forall allocation_call cs →
  history worker (run_calls cs e) ⊆ unit_names e ∧
  (length (history worker (run_calls cs e)) ≤ length (unit_names e))%nat.
Proof.
  intros Hdistinct Hin Hcs.
  pose proof (histories_within_run_calls cs e Hcs Hin worker) as Hsub.
  split; [done|]. apply submseteq_length, NoDup_submseteq; [|done].
  apply (histories_distinct_run_calls cs e Hdistinct).
Qed.

(** ** The members of the units *)

Section Members.
Implicit Types (batch : list JobPosting.t) (l cur : list JobPosting.t).

Lemma members_from_keys j batch :
  (members_from j batch).*1 = seq j (length batch).
Proof.
  revert j. induction batch as [|p batch IH]; intros j; [done|].
  simpl. f_equal. apply IH.
Qed.

Lemma members_from_ids j batch :
  (members_from j batch).*2 = JobPosting.id <$> batch.
Proof.
  revert j. induction batch as [|p batch IH]; intros j; [done|].
  simpl. f_equal. apply IH.
Qed.

Lemma Batch_group_concat {A} limit num (cur l : list A) :
  concat (Batch_group limit num cur l) = rev cur ++ l.
Proof.
  revert num cur. induction l as [|x l IH]; intros num cur; simpl.
  - by rewrite app_nil_r.
  - destruct (num =? limit)%Z; simpl; rewrite IH; simpl.
    + done.
    + by rewrite <- app_assoc.
Qed.

Lemma Batch_concat_any {A} (l : list A) limit : concat (Batch l limit) = l.
Proof. destruct l as [|x l]; [done|]. unfold Batch. by rewrite Batch_group_concat. Qed.

Lemma unit_entries_ids i (batches : list (list JobPosting.t)) :
  concat ((λ entry, entry.2.*2) <$> unit_entries i batches)
  = JobPosting.id <$> concat batches.
Proof.
  revert i. induction batches as [|b bs IH]; intros i; [done|].
  simpl. by rewrite IH, members_from_ids, fmap_app.
Qed.
End Members.

(** X11.  In every unit [start] records, the members are numbered from 0
    in the order of the batch, each paired with the id of its posting: the
    keys are 0, 1, ..., n-1 and the ids are those of the batch's postings. *)
Theorem start_numbers_members sample entities minimum maximum e (i : nat)
    unit_name members :
  units_of (snd (start sample entities minimum maximum e)) !! i
  = Some (unit_name, members) →
  unit_name = unit_name_of i ∧
  members.*1 = seq 0 (length members) ∧
  ∃ batch, Batch (Sample.postings sample) maximum !! i = Some batch ∧
           members.*2 = JobPosting.id <$> batch.
Proof.
  rewrite start_units_of.
  intros (batch & Hbatch & -> & ->)%lookup_unit_entries.
  split; [done|]. split.
  - by rewrite members_from_keys, length_members_from.
  - exists batch. split; [done|]. apply members_from_ids.
Qed.

(** X12.  [start] loses, repeats and reorders nothing: read unit after
    unit in creation order, the ids of the members are the ids of the
    sample's postings in the sample's order, whatever the unit size ([Batch]
    cutting the sequence into consecutive groups). *)
Theorem start_keeps_every_posting sample entities minimum maximum e :
  concat ((λ entry, entry.2.*2)
            <$> units_of (snd (start sample entities minimum maximum e)))
  = JobPosting.id <$> Sample.postings sample.
Proof. by rewrite start_units_of, unit_entries_ids, Batch_concat_any. Qed.

(** ** What the copies of an allocation touch *)

Section Copies.
Implicit Types (m : gmap string string) (ks : list string) (dest : string → string).

Lemma copy_all_frame dest ks m x :
  (∀ k, k ∈ ks → dest k ≠ x) → copy_all dest ks m !! x = m !! x.
Proof.
  revert m. induction ks as [|k0 ks IH]; intros m Hx; [done|]. simpl.
  rewrite IH by (intros k Hk; apply Hx; by right).
  destruct (m !! k0); [|done]. rewrite lookup_insert_ne; [done|]. apply Hx. by left.
Qed.

Lemma copy_all_content dest ks m k :
  (∀ k', k' ∈ ks → is_Some (m !! k')) →
  (∀ k' k'', k' ∈ ks → k'' ∈ ks → dest k' ≠ k'') →
  (∀ k' k'', k' ∈ ks → k'' ∈ ks → dest k' = dest k'' → k' = k'') →
  k ∈ ks →
  copy_all dest ks m !! dest k = m !! k.
Proof.
  revert m. induction ks as [|k0 ks IH]; intros m Hpresent Hapart Hinj Hk.
  { by apply not_elem_of_nil in Hk. }
  simpl. destruct (Hpresent k0) as [content Hk0]; [left|]. rewrite Hk0.
  destruct (decide (k ∈ ks)) as [Hin|Hout].
  - rewrite IH; try done.
    + rewrite lookup_insert_ne; [done|]. apply Hapart; [left | by right].
    + intros k' Hk'. rewrite lookup_insert_ne by (apply Hapart; [left | by right]).
      apply Hpresent. by right.
    + intros k' k'' ? ?. apply Hapart; by right.
    + intros k' k'' ? ?. apply Hinj; by right.
  - apply elem_of_cons in Hk as [->|?]; [|done].
    rewrite copy_all_frame.
    + by rewrite lookup_insert_eq.
    + intros k' Hk' Heq. apply Hout.
      rewrite <- (Hinj k' k0); [done | by right | left | done].
Qed.
End Copies.

Lemma listing_under dir e k : k ∈ listing dir e → ∃ tail, k = dir +:+ "/" +:+ tail.
Proof.
  intros [Hunder _]%list_elem_of_filter.
  apply string_prefix_split in Hunder as [tail ->].
  exists tail. by rewrite string_append_assoc.
Qed.

Lemma dest_key_prefix e user_name u k :
  k ∈ listing (unit_path e u) e →
  String.prefix (allocation_path e user_name u)
    (replace k (unit_path e u) (allocation_path e user_name u)) = true.
Proof.
  intros [tail ->]%listing_under.
  rewrite replace_at_prefix by apply unit_path_nonempty.
  apply string_prefix_app.
Qed.

Lemma s3_delivered user_name u e :
  s3 (delivered user_name u (prepared user_name e))
  = copy_all (λ k, replace k (unit_path e u) (allocation_path e user_name u))
      (listing (unit_path e u) e) (s3 e).
Proof. reflexivity. Qed.

(** X13.  A successful [add_allocation] has written only below the
    directory it returns: every blob whose path does not start with the
    returned directory is after the call what it was before. *)
Theorem add_allocation_writes_below_directory user_name e dest_dir :
  fst (add_allocation user_name e) = Ok dest_dir →
  ∀ path, String.prefix dest_dir path = false →
          s3 (snd (add_allocation user_name e)) !! path = s3 e !! path.
Proof.
  intros Hok.
  destruct (add_allocation_outcome user_name e)
    as [Hrun|[(_ & x & Hrun)|(_ & u & _ & _ & Hrun)]];
    rewrite Hrun in Hok |- *; simpl in Hok; try done.
  injection Hok as <-. cbn [snd].
  intros path Hpath. rewrite s3_delivered. apply copy_all_frame.
  intros k Hk <-. by rewrite (dest_key_prefix e user_name u k Hk) in Hpath.
Qed.

(** X14.  The copies deliver the unit's files.  After a successful
    [add_allocation], if no listed file of the unit lies in the returned
    directory and the listed files have pairwise distinct destinations,
    every destination holds the content its source had, and the sources
    hold what they held. *)
Theorem add_allocation_delivers_content user_name e dest_dir :
  fst (add_allocation user_name e) = Ok dest_dir →
  ∃ u, dest_dir = allocation_path e user_name u ∧
       ((∀ k, k ∈ listing (unit_path e u) e → String.prefix dest_dir k = false) →
        (∀ k k', k ∈ listing (unit_path e u) e → k' ∈ listing (unit_path e u) e →
                 replace k (unit_path e u) dest_dir
                 = replace k' (unit_path e u) dest_dir → k = k') →
        ∀ k, k ∈ listing (unit_path e u) e →
             is_Some (s3 e !! k) ∧
             s3 (snd (add_allocation user_name e))
               !! replace k (unit_path e u) dest_dir = s3 e !! k ∧
             s3 (snd (add_allocation user_name e)) !! k = s3 e !! k).
Proof.
  intros Hok.
  destruct (add_allocation_outcome user_name e)
    as [Hrun|[(_ & x & Hrun)|(_ & u & _ & _ & Hrun)]];
    rewrite Hrun in Hok |- *; simpl in Hok; try done.
  injection Hok as <-. exists u. split; [done|].
  intros Hapart Hinj k Hk. cbn [snd]. rewrite s3_delivered.
  assert (Hne : ∀ k' k'', k' ∈ listing (unit_path e u) e →
                  k'' ∈ listing (unit_path e u) e →
                  replace k' (unit_path e u) (allocation_path e user_name u) ≠ k'').
  { intros k' k'' Hk' Hk'' Heq. specialize (Hapart k'' Hk'').
    rewrite <- Heq in Hapart. by rewrite (dest_key_prefix e user_name u k' Hk') in Hapart. }
  split; [by apply (listing_present (unit_path e u))|]. split.
  - apply (copy_all_content
             (λ k, replace k (unit_path e u) (allocation_path e user_name u)));
      try done. intros k'. apply listing_present.
  - apply copy_all_frame. intros k' Hk'. by apply Hne.
Qed.

(** ** Decimal numerals in paths *)

Section Numerals.
Lemma pretty_N_go_chars (P : ascii → Prop) x s :
  (∀ d, P (pretty_N_char d)) → chars P s → chars P (pretty_N_go x s).
Proof.
  intros Hdigit. revert s. induction (N.lt_wf_0 x) as [x _ IH]; intros s Hs.
  destruct (decide (x = 0)%N) as [->|Hx]; [by rewrite pretty_N_go_0|].
  rewrite pretty_N_go_step by lia. apply IH.
  - apply N.div_lt; lia.
  - simpl. auto.
Qed.

Lemma pretty_nat_chars (P : ascii → Prop) (n : nat) :
  (∀ d, P (pretty_N_char d)) → chars P (pretty n).
Proof.
  intros Hdigit. unfold pretty, pretty_nat, pretty, pretty_N.
  case_decide.
  - simpl. split; [apply (Hdigit 0%N) | done].
  - by apply pretty_N_go_chars.
Qed.

Lemma pretty_N_char_not (c : ascii) :
  c = "/"%char ∨ c = "."%char → ∀ d, pretty_N_char d ≠ c.
Proof.
  intros Hc d. unfold pretty_N_char.
  destruct Hc as [-> | ->]; repeat case_match; discriminate.
Qed.

Lemma append_separator_inj (c : ascii) s s' r r' :
  chars (λ a, a ≠ c) s → chars (λ a, a ≠ c) s' →
  s +:+ String c r = s' +:+ String c r' → s = s' ∧ r = r'.
Proof.
  revert s'. induction s as [|a s IH]; intros [|a' s']; simpl.
  - intros _ _ [= ->]. done.
  - intros _ [Ha' _] [= <- _]. done.
  - intros [Ha _] _ [= -> _]. done.
  - intros [_ Hs] [_ Hs'] [= <- Heq].
    destruct (IH s' Hs Hs' Heq) as [-> ->]. done.
Qed.

Lemma pretty_separator_inj (c : ascii) (i i' : nat) r r' :
  c = "/"%char ∨ c = "."%char →
  pretty i +:+ String c r = pretty i' +:+ String c r' → i = i' ∧ r = r'.
Proof.
  intros Hc Heq.
  apply append_separator_inj in Heq as [Hi ->];
    try (apply pretty_nat_chars, pretty_N_char_not, Hc).
  split; [|done]. by apply (inj pretty) in Hi.
Qed.
End Numerals.

(** ** The blob store after [start] *)

Section StartFiles.
Implicit Types (e : BratExperiment) (m : gmap string string).
Implicit Types (batch : list JobPosting.t) (d : list (string * list (nat * string))).

Lemma write_postings_s3 unit_name j batch e d acc :
  md_units (storage (metadata e)) = Some d →
  Dict.get unit_name d = Some acc →
  for_enumerate (write_posting unit_name) j batch e
  = (Ok tt,
     with_units_s3 (Dict.set unit_name (acc ++ members_from j batch) d)
       (unit_files (unit_path e unit_name) j batch (s3 e)) e).
Proof.
  revert j e d acc. induction batch as [|posting batch IH]; intros j e d acc Hd Hacc.
  - simpl. rewrite app_nil_r, (Dict_set_id _ _ _ Hacc).
    by rewrite with_units_s3_same.
  - simpl. unfold bind at 1, write_posting at 1, units_append, s3_write. run.
    rewrite Hd. simpl. rewrite Hacc. simpl.
    set (d1 := Dict.set unit_name (acc ++ [(j, JobPosting.id posting)]) d).
    match goal with
    | |- for_enumerate _ _ _ ?e1 = _ =>
        rewrite (IH (S j) e1 d1 (acc ++ [(j, JobPosting.id posting)]));
          [| reflexivity | apply Dict_get_set_eq]
    end.
    unfold d1. rewrite Dict_set_set. by rewrite <- app_assoc.
Qed.

Lemma write_units_s3 i batches e d :
  md_units (storage (metadata e)) = Some d →
  for_enumerate write_unit i batches e
  = (Ok tt,
     with_units_s3
       (foldl (λ d entry, Dict.set entry.1 entry.2 d) d (unit_entries i batches))
       (units_files (data_path e) i batches (s3 e)) e).
Proof.
  revert i e d. induction batches as [|batch batches IH]; intros i e d Hd.
  - simpl. by rewrite with_units_s3_same.
  - simpl. unfold bind at 1, write_unit at 1, units_setitem. run. rewrite Hd. simpl.
    match goal with
    | |- match for_enumerate _ _ _ ?e1 with _ => _ end = _ =>
        rewrite (write_postings_s3 (unit_name_of i) 0 batch e1
                   (Dict.set (unit_name_of i) [] d) []);
          [| reflexivity | apply Dict_get_set_eq]
    end.
    rewrite Dict_set_set. simpl.
    match goal with
    | |- for_enumerate _ _ _ ?e2 = _ =>
        rewrite (IH (S i) e2 (Dict.set (unit_name_of i) (members_from 0 batch) d));
          [| reflexivity]
    end.
    reflexivity.
Qed.

Lemma start_s3 sample entities minimum maximum e :
  s3 (snd (start sample entities minimum maximum e))
  = config_files e entities
      (units_files (data_path e) 0 (Batch (Sample.postings sample) maximum) (s3 e)).
Proof.
  unfold start. unfold bind at 1. unfold modify at 1.
  unfold bind at 1. unfold modify at 1.
  unfold bind at 1.
  match goal with
  | |- context [for_enumerate _ _ ?bs ?e1] =>
      rewrite (write_units_s3 0 bs e1 []); [|reflexivity]
  end.
  reflexivity.
Qed.

(** *** Paths of the artifacts *)

Lemma posting_file_inj dir (j j' : nat) sfx sfx' :
  posting_file dir j (String "." sfx) = posting_file dir j' (String "." sfx') →
  j = j' ∧ sfx = sfx'.
Proof.
  unfold posting_file. simpl. rewrite !string_append_assoc. intros Heq.
  apply (inj (String.app dir)) in Heq.
  apply (inj (String.app "/")) in Heq.
  apply pretty_separator_inj in Heq; [done | by right].
Qed.

Lemma posting_file_unit e (i j : nat) sfx :
  posting_file (unit_path e (unit_name_of i)) j sfx
  = data_path e +:+ "/.unit_" +:+ pretty i +:+ String "/" (pretty j +:+ sfx).
Proof.
  unfold posting_file, unit_path, unit_name_of. simpl.
  rewrite !string_append_assoc. reflexivity.
Qed.

Lemma posting_file_unit_inj e (i i' j j' : nat) sfx sfx' :
  posting_file (unit_path e (unit_name_of i)) j (String "." sfx)
  = posting_file (unit_path e (unit_name_of i')) j' (String "." sfx') →
  i = i' ∧ j = j' ∧ sfx = sfx'.
Proof.
  rewrite !posting_file_unit. intros Heq.
  apply (inj (String.app _)) in Heq. apply (inj (String.app "/.unit_")) in Heq.
  apply pretty_separator_inj in Heq as [-> Heq]; [|by left].
  apply pretty_separator_inj in Heq as [-> ->]; [done | by right].
Qed.

Lemma posting_file_config e (i j : nat) sfx :
  posting_file (unit_path e (unit_name_of i)) j sfx
  = brat_config_path e
    +:+ "/data/.unit_" +:+ pretty i +:+ String "/" (pretty j +:+ sfx).
Proof.
  rewrite posting_file_unit. unfold data_path. simpl.
  rewrite !string_append_assoc. reflexivity.
Qed.

Lemma config_file_not_posting_file e name (i j : nat) sfx :
  name = "annotation.conf" ∨ name = "kb_shortcuts.conf" ∨ name = "visual.conf" →
  String.concat "/" [brat_config_path e; name]
  ≠ posting_file (unit_path e (unit_name_of i)) j sfx.
Proof.
  rewrite posting_file_config. simpl. intros Hname Heq.
  apply (inj (String.app _)) in Heq.
  destruct Hname as [-> | [-> | ->]]; discriminate.
Qed.

(** *** Reading the folds *)

Lemma posting_files_frame dir j posting m k :
  k ≠ posting_file dir j ".txt" → k ≠ posting_file dir j ".ann" →
  posting_files dir j posting m !! k = m !! k.
Proof. intros ??. unfold posting_files. by rewrite !lookup_insert_ne. Qed.

Lemma unit_files_frame dir j batch m k :
  (∀ idx : nat, k ≠ posting_file dir idx ".txt" ∧ k ≠ posting_file dir idx ".ann") →
  unit_files dir j batch m !! k = m !! k.
Proof.
  intros Hk. revert j m. induction batch as [|posting batch IH]; intros j m; [done|].
  simpl. rewrite IH. apply posting_files_frame; apply Hk.
Qed.

Lemma unit_files_later dir (j j0 : nat) batch m sfx :
  (j0 < j)%nat →
  unit_files dir j batch m !! posting_file dir j0 (String "." sfx)
  = m !! posting_file dir j0 (String "." sfx).
Proof.
  revert j m. induction batch as [|posting batch IH]; intros j m Hlt; [done|].
  simpl. rewrite IH by lia. apply posting_files_frame.
  - intros [? _]%posting_file_inj. lia.
  - intros [? _]%posting_file_inj. lia.
Qed.

Lemma unit_files_hit dir (j idx : nat) batch m posting :
  batch !! idx = Some posting →
  unit_files dir j batch m !! posting_file dir (j + idx) ".txt"
  = Some (JobPosting.text posting) ∧
  unit_files dir j batch m !! posting_file dir (j + idx) ".ann" = Some "".
Proof.
  revert j idx m. induction batch as [|p batch IH]; intros j idx m; [done|].
  destruct idx as [|idx]; simpl.
  - intros [= ->]. rewrite Nat.add_0_r, !unit_files_later by lia.
    unfold posting_files. split.
    + rewrite lookup_insert_ne, lookup_insert_eq; [done|].
      intros [_ [=]]%posting_file_inj.
    + by rewrite lookup_insert_eq.
  - intros Hidx. replace (j + S idx)%nat with (S j + idx)%nat by lia.
    by apply IH.
Qed.

Lemma units_files_frame e i batches m k :
  (∀ (i' idx : nat) sfx, k ≠ posting_file (unit_path e (unit_name_of i')) idx sfx) →
  units_files (data_path e) i batches m !! k = m !! k.
Proof.
  intros Hk. revert i m. induction batches as [|batch batches IH]; intros i m; [done|].
  simpl. rewrite IH. apply unit_files_frame. intros idx. split; apply Hk.
Qed.

Lemma units_files_later e (i i0 j : nat) batches m sfx :
  (i0 < i)%nat →
  units_files (data_path e) i batches m
    !! posting_file (unit_path e (unit_name_of i0)) j (String "." sfx)
  = m !! posting_file (unit_path e (unit_name_of i0)) j (String "." sfx).
Proof.
  revert i m. induction batches as [|batch batches IH]; intros i m Hlt; [done|].
  simpl. rewrite IH by lia. apply unit_files_frame.
  intros idx. split; intros [? _]%posting_file_unit_inj; lia.
Qed.

Lemma units_files_hit e (i ui idx : nat) batches m batch posting :
  batches !! ui = Some batch → batch !! idx = Some posting →
  units_files (data_path e) i batches m
    !! posting_file (unit_path e (unit_name_of (i + ui))) idx ".txt"
  = Some (JobPosting.text posting) ∧
  units_files (data_path e) i batches m
    !! posting_file (unit_path e (unit_name_of (i + ui))) idx ".ann"
  = Some "".
Proof.
  revert i ui m. induction batches as [|b batches IH]; intros i ui m; [done|].
  destruct ui as [|ui]; simpl.
  - intros [= ->] Hidx. rewrite Nat.add_0_r, !units_files_later by lia.
    apply (unit_files_hit _ 0 idx). done.
  - intros Hui Hidx. replace (i + S ui)%nat with (S i + ui)%nat by lia.
    by apply IH.
Qed.

Lemma config_files_frame e entities m k :
  k ≠ String.concat "/" [brat_config_path e; "annotation.conf"] →
  k ≠ String.concat "/" [brat_config_path e; "kb_shortcuts.conf"] →
  k ≠ String.concat "/" [brat_config_path e; "visual.conf"] →
  config_files e entities m !! k = m !! k.
Proof. intros ???. unfold config_files. by rewrite !lookup_insert_ne. Qed.
End StartFiles.

(** X15.  [start] writes two artifacts for every posting of every batch:
    at the unit's path, under the posting's number within the unit, a
    [.txt] blob holding the posting's text and an empty [.ann] blob.  No
    later write of the same call replaces them. *)
Theorem start_writes_postings sample entities minimum maximum e
    (i j : nat) batch posting :
  Batch (Sample.postings sample) maximum !! i = Some batch →
  batch !! j = Some posting →
  s3 (snd (start sample entities minimum maximum e))
    !! (String.concat "/" [unit_path e (unit_name_of i); pretty j] +:+ ".txt")
  = Some (JobPosting.text posting) ∧
  s3 (snd (start sample entities minimum maximum e))
    !! (String.concat "/" [unit_path e (unit_name_of i); pretty j] +:+ ".ann")
  = Some "".
Proof.
  intros Hbatch Hposting. rewrite start_s3.
  change (String.concat "/" [unit_path e (unit_name_of i); pretty j] +:+ ".txt")
    with (posting_file (unit_path e (unit_name_of i)) j ".txt").
  change (String.concat "/" [unit_path e (unit_name_of i); pretty j] +:+ ".ann")
    with (posting_file (unit_path e (unit_name_of i)) j ".ann").
  rewrite !config_files_frame
    by (intros Heq; symmetry in Heq; revert Heq;
        apply config_file_not_posting_file; auto).
  apply (units_files_hit e 0 i j _ _ batch posting Hbatch Hposting).
Qed.

(** X16.  Through the blob store [self.s3], [start] writes below the
    experiment's BRAT configuration path only: every blob whose path does
    not start with [brat_config_path] is after the call what it was before.
    (The metadata is saved through its own store.) *)
Theorem start_writes_below_config_path sample entities minimum maximum e path :
  String.prefix (brat_config_path e) path = false →
  s3 (snd (start sample entities minimum maximum e)) !! path = s3 e !! path.
Proof.
  intros Hpath. rewrite start_s3.
  assert (Hout : ∀ tail, path ≠ brat_config_path e +:+ tail).
  { intros tail ->. by rewrite string_prefix_app in Hpath. }
  rewrite config_files_frame by (simpl; apply Hout).
  apply units_files_frame. intros i' idx sfx.
  rewrite posting_file_config. apply Hout.
Qed.

(** X17.  After [start] the three configuration files are in the blob
    store with the contents generated from the entities, and what [start]
    wrote for the postings has not replaced them. *)
Theorem start_writes_configuration sample entities minimum maximum e :
  s3 (snd (start sample entities minimum maximum e))
    !! String.concat "/" [brat_config_path e; "annotation.conf"]
  = Some (annotation_conf entities) ∧
  s3 (snd (start sample entities minimum maximum e))
    !! String.concat "/" [brat_config_path e; "kb_shortcuts.conf"]
  = Some (kb_shortcuts_conf entities) ∧
  s3 (snd (start sample entities minimum maximum e))
    !! String.concat "/" [brat_config_path e; "visual.conf"]
  = Some (visual_conf entities).
Proof.
  rewrite start_s3. unfold config_files.
  assert (Hne : ∀ a b : string, a ≠ b →
            String.concat "/" [brat_config_path e; a]
            ≠ String.concat "/" [brat_config_path e; b]).
  { simpl. intros a b Hab Heq. apply (inj (String.app _)) in Heq.
    by injection Heq. }
  split; [|split].
  - rewrite !lookup_insert_ne by (apply Hne; done). by rewrite lookup_insert_eq.
  - rewrite lookup_insert_ne by (apply Hne; done). by rewrite lookup_insert_eq.
  - by rewrite lookup_insert_eq.
Qed.

(** ** Where the delivered files are *)

Section Destinations.
Implicit Types (e : BratExperiment) (user_name u k : string).

Lemma allocation_path_leading_slash e user_name u rest :
  unit_path e u = String "/" rest →
  ∃ rest', allocation_path e user_name u = String "/" rest'.
Proof.
  unfold unit_path, allocation_path, user_allocations_path. simpl.
  destruct (data_path e) as [|c data]; simpl.
  - intros _. by eexists.
  - intros [= -> _]. by eexists.
Qed.

Lemma under_append dir tail : under dir (dir +:+ String "/" tail).
Proof.
  unfold under.
  change (dir +:+ String "/" tail) with (dir +:+ ("/" +:+ tail)).
  rewrite <- string_append_assoc. apply string_prefix_app.
Qed.

Lemma dest_key_under e user_name u k :
  k ∈ listing (unit_path e u) e →
  under (allocation_path e user_name u)
    (replace k (unit_path e u) (allocation_path e user_name u)).
Proof.
  intros [tail ->]%listing_under.
  rewrite replace_at_prefix by apply unit_path_nonempty.
  pose proof (unit_path_nonempty e u) as Hne.
  destruct (unit_path e u) as [|c old] eqn:Hold; [done|].
  change ("/" +:+ tail) with (String "/" tail).
  unfold replace. cbn [replace_go].
  destruct (String.prefix (String c old) (String "/" tail)) eqn:Hprefix.
  - apply string_prefix_split in Hprefix as [t Ht].
    change (String c old +:+ t) with (String c (old +:+ t)) in Ht.
    injection Ht as <- _.
    destruct (allocation_path_leading_slash e user_name u old Hold) as [rest' ->].
    change (String "/" rest' +:+ ?x) with (String "/" (rest' +:+ x)).
    apply under_append.
  - apply under_append.
Qed.

Lemma under_trans dir sub path :
  under dir (sub +:+ "/") ∨ under dir sub → under sub path → under dir path.
Proof.
  unfold under. intros Hsub Hpath.
  apply string_prefix_split in Hpath as [t ->].
  set (p := dir +:+ "/") in *.
  destruct Hsub as [Hsub|Hsub]; apply string_prefix_split in Hsub as [t' Ht'].
  - rewrite Ht', string_append_assoc. apply string_prefix_app.
  - rewrite Ht', !string_append_assoc. apply string_prefix_app.
Qed.

Lemma allocation_path_under e user_name u :
  under (user_allocations_path e user_name) (allocation_path e user_name u +:+ "/").
Proof.
  unfold allocation_path. simpl. rewrite string_append_assoc. apply under_append.
Qed.

Lemma dest_key_present e user_name u k :
  k ∈ listing (unit_path e u) e →
  is_Some (s3 (delivered user_name u (prepared user_name e))
             !! replace k (unit_path e u) (allocation_path e user_name u)).
Proof.
  intros Hk. rewrite s3_delivered.
  apply (copy_all_dest
           (λ k, replace k (unit_path e u) (allocation_path e user_name u)));
    [intros k'; apply listing_present | done].
Qed.
End Destinations.

(** X18.  What a successful [add_allocation] delivers is in the directory
    it returns: for every listed file of the unit, the destination is
    afterwards in the blob store, inside the returned directory and so
    inside the user's allocations path.  That path is also the path a unit
    of the user's name has: a user named like a unit gets its allocations
    among that unit's files. *)
Theorem add_allocation_files_in_directory user_name e dest_dir :
  fst (add_allocation user_name e) = Ok dest_dir →
  ∃ u, dest_dir = allocation_path e user_name u ∧
       ∀ k, k ∈ listing (unit_path e u) e →
            is_Some (s3 (snd (add_allocation user_name e))
                       !! replace k (unit_path e u) dest_dir) ∧
            under dest_dir (replace k (unit_path e u) dest_dir) ∧
            under (user_allocations_path e user_name)
              (replace k (unit_path e u) dest_dir) ∧
            under (unit_path e user_name) (replace k (unit_path e u) dest_dir).
Proof.
  intros Hok.
  destruct (add_allocation_outcome user_name e)
    as [Hrun|[(_ & x & Hrun)|(_ & u & _ & _ & Hrun)]];
    rewrite Hrun in Hok |- *; simpl in Hok; try done.
  injection Hok as <-. exists u. split; [done|]. intros k Hk. cbn [snd].
  pose proof (dest_key_under e user_name u k Hk) as Hunder.
  assert (Huser : under (user_allocations_path e user_name)
                    (replace k (unit_path e u) (allocation_path e user_name u))).
  { eapply under_trans; [left; apply allocation_path_under | exact Hunder]. }
  split; [by apply dest_key_present|]. split; [exact Hunder|]. split; exact Huser.
Qed.

(** ** The further properties at the small experiment *)

Lemma add_allocation_before_start_witness :
  registered "A" unstarted_A ∧
  md_units (storage (metadata unstarted_A)) = None ∧
  fst (add_allocation "A" unstarted_A) = Raise (KeyError "units") ∧
  "A" ∈ Dict.keys (allocations_of (snd (add_allocation "A" unstarted_A))).
Proof.
  assert (Hr : registered "A" unstarted_A)
    by (apply (bool_decide_unpack _); by vm_compute).
  assert (Hu : md_units (storage (metadata unstarted_A)) = None) by (by vm_compute).
  split; [exact Hr|]. split; [exact Hu|].
  destruct (add_allocation_before_start "A" unstarted_A Hr Hu) as (Hraise & Hkey & _).
  split; [exact Hraise | exact Hkey].
Defined.

Lemma add_user_not_rolled_back_witness :
  ¬ registered "A" fresh ∧
  fst (add_user "A" "pw" fresh) = Raise (KeyError "units") ∧
  saved (user_pw_store (snd (add_user "A" "pw" fresh))) !! "A" = Some "pw" ∧
  add_user "A" "other" (snd (add_user "A" "pw" fresh))
  = (Raise (ValueError "User A already created"), snd (add_user "A" "pw" fresh)).
Proof.
  assert (Hn : ¬ registered "A" fresh)
    by (apply (bool_decide_unpack _); by vm_compute).
  split; [exact Hn|]. split; [by vm_compute|].
  destruct (add_user_not_rolled_back "A" "pw" "other" fresh Hn) as (_ & Hsaved & Hagain).
  split; [exact Hsaved | exact Hagain].
Defined.

Lemma registered_A_exhausted_A : registered "A" exhausted_A.
Proof. apply (bool_decide_unpack _). by vm_compute. Defined.

Lemma started_exhausted_A : started exhausted_A.
Proof. apply (bool_decide_unpack _). by vm_compute. Defined.

Lemma exhausted_stays_exhausted_witness :
  registered "A" exhausted_A ∧ started exhausted_A ∧
  Forall (λ v, v ∈ history "A" exhausted_A) (unit_names exhausted_A) ∧
  Forall allocation_call [CallAddUser "C" "pw"; CallAddAllocation "B";
                          CallAddAllocation "A"] ∧
  fst (add_allocation "A"
         (run_calls [CallAddUser "C" "pw"; CallAddAllocation "B";
                     CallAddAllocation "A"] exhausted_A))
  = Raise (ValueError "No units left to allocate to user!").
Proof.
  assert (Hall : Forall (λ v, v ∈ history "A" exhausted_A) (unit_names exhausted_A))
    by (apply (bool_decide_unpack _); by vm_compute).
  assert (Hcs : Forall allocation_call [CallAddUser "C" "pw"; CallAddAllocation "B";
                                        CallAddAllocation "A"])
    by (repeat constructor).
  split; [exact registered_A_exhausted_A|]. split; [exact started_exhausted_A|].
  split; [exact Hall|]. split; [exact Hcs|].
  exact (exhausted_stays_exhausted _ "A" exhausted_A
           registered_A_exhausted_A started_exhausted_A Hall Hcs).
Defined.

Lemma histories_append_only_witness :
  Forall same_object_call [CallAddAllocation "A"; CallStart sample0 [] 1 1;
                           CallAddUser "C" "pw"] ∧
  history "A" allocated_AB
  `prefix_of` history "A" (run_calls [CallAddAllocation "A"; CallStart sample0 [] 1 1;
                                      CallAddUser "C" "pw"] allocated_AB).
Proof.
  assert (Hcs : Forall same_object_call [CallAddAllocation "A"; CallStart sample0 [] 1 1;
                                         CallAddUser "C" "pw"])
    by (repeat constructor).
  split; [exact Hcs|]. exact (histories_append_only _ "A" allocated_AB Hcs).
Defined.

Lemma allocation_calls_keep_units_witness :
  Forall allocation_call [CallAddUser "A" "pw"; CallAddAllocation "A";
                          CallAddAllocation "Z"] ∧
  unit_names (run_calls [CallAddUser "A" "pw"; CallAddAllocation "A";
                         CallAddAllocation "Z"] started5)
  = unit_names started5.
Proof.
  assert (Hcs : Forall allocation_call [CallAddUser "A" "pw"; CallAddAllocation "A";
                                        CallAddAllocation "Z"])
    by (repeat constructor).
  split; [exact Hcs|].
  exact (proj1 (proj2 (allocation_calls_keep_units _ started5 Hcs))).
Defined.

Lemma passwords_never_overwritten_witness :
  storage (user_pw_store registered_A) !! "A" = Some "pw" ∧
  saved (user_pw_store registered_A) !! "A" = Some "pw" ∧
  storage (user_pw_store
             (run_calls [CallAddUser "A" "other"; CallReopen; CallAddUser "B" "x"]
                registered_A)) !! "A" = Some "pw".
Proof.
  assert (Hmem : storage (user_pw_store registered_A) !! "A" = Some "pw")
    by (by vm_compute).
  assert (Hsaved : saved (user_pw_store registered_A) !! "A" = Some "pw")
    by (by vm_compute).
  split; [exact Hmem|]. split; [exact Hsaved|].
  exact (proj1 (passwords_never_overwritten _ "A" "pw" registered_A Hmem Hsaved)).
Defined.

Lemma add_allocation_new_directory_witness :
  fst (add_allocation "A" allocated_AB)
  = Ok "bucket/brat/tag/brat_config/data/.A/unit_1" ∧
  "unit_0" ∈ history "A" allocated_AB ∧
  "bucket/brat/tag/brat_config/data/.A/unit_1" ≠ allocation_path allocated_AB "A" "unit_0".
Proof.
  assert (Hok : fst (add_allocation "A" allocated_AB)
                = Ok "bucket/brat/tag/brat_config/data/.A/unit_1") by (by vm_compute).
  assert (Hin : "unit_0" ∈ history "A" allocated_AB)
    by (apply (bool_decide_unpack _); by vm_compute).
  split; [exact Hok|]. split; [exact Hin|].
  exact (add_allocation_new_directory "A" allocated_AB _ Hok "unit_0" Hin).
Defined.

Lemma add_allocation_coverage_witness :
  fst (add_allocation "A" allocated_AB)
  = Ok "bucket/brat/tag/brat_config/data/.A/unit_1" ∧
  ∃ u, "bucket/brat/tag/brat_config/data/.A/unit_1" = allocation_path allocated_AB "A" u ∧
       ∀ v, coverage (allocations_of (snd (add_allocation "A" allocated_AB))) v
            = (coverage (allocations_of allocated_AB) v
               + if decide (v = u) then 1 else 0)%nat.
Proof.
  assert (Hok : fst (add_allocation "A" allocated_AB)
                = Ok "bucket/brat/tag/brat_config/data/.A/unit_1") by (by vm_compute).
  split; [exact Hok|]. exact (add_allocation_coverage "A" allocated_AB _ Hok).
Defined.

Lemma coverage_target_stays_met_witness :
  Forall allocation_call [CallAddAllocation "A"; CallAddUser "C" "pw"] ∧
  ¬ needs_more_coverage allocated_AB "unit_0" ∧
  ¬ needs_more_coverage
      (run_calls [CallAddAllocation "A"; CallAddUser "C" "pw"] allocated_AB) "unit_0".
Proof.
  assert (Hcs : Forall allocation_call [CallAddAllocation "A"; CallAddUser "C" "pw"])
    by (repeat constructor).
  assert (Hmet : ¬ needs_more_coverage allocated_AB "unit_0")
    by (apply (bool_decide_unpack _); by vm_compute).
  split; [exact Hcs|]. split; [exact Hmet|].
  exact (proj2 (coverage_target_stays_met _ "unit_0" allocated_AB Hcs) Hmet).
Defined.

Lemma history_bounded_by_units_witness :
  histories_distinct started5 ∧
  (∀ w, history w started5 ⊆ unit_names started5) ∧
  Forall allocation_call [CallAddUser "A" "pw"; CallAddAllocation "A";
                          CallAddAllocation "A"; CallAddAllocation "A"] ∧
  (length (history "A"
             (run_calls [CallAddUser "A" "pw"; CallAddAllocation "A";
                         CallAddAllocation "A"; CallAddAllocation "A"] started5))
   ≤ length (unit_names started5))%nat.
Proof.
  assert (Hd : histories_distinct started5).
  { intros w. split; apply NoDup_nil_2. }
  assert (Hin : ∀ w, history w started5 ⊆ unit_names started5).
  { intros w v Hv. by apply not_elem_of_nil in Hv. }
  assert (Hcs : Forall allocation_call [CallAddUser "A" "pw"; CallAddAllocation "A";
                                        CallAddAllocation "A"; CallAddAllocation "A"])
    by (repeat constructor).
  split; [exact Hd|]. split; [exact Hin|]. split; [exact Hcs|].
  exact (proj2 (history_bounded_by_units _ "A" started5 Hd Hin Hcs)).
Defined.

Lemma start_numbers_members_witness :
  units_of (snd (start sample5 [("c", "Competency")] 2 2 fresh)) !! 2%nat
  = Some ("unit_2", [(0%nat, "ide")]) ∧
  [(0%nat, "ide")].*1 = seq 0 (length [(0%nat, "ide")]).
Proof.
  assert (Hlook : units_of (snd (start sample5 [("c", "Competency")] 2 2 fresh)) !! 2%nat
                  = Some ("unit_2", [(0%nat, "ide")])) by (by vm_compute).
  split; [exact Hlook|].
  exact (proj1 (proj2 (start_numbers_members sample5 [("c", "Competency")] 2 2 fresh
                         2 "unit_2" [(0%nat, "ide")] Hlook))).
Defined.

Lemma add_allocation_writes_below_directory_witness :
  fst (add_allocation "A" registered_A)
  = Ok "bucket/brat/tag/brat_config/data/.A/unit_0" ∧
  String.prefix "bucket/brat/tag/brat_config/data/.A/unit_0"
    "bucket/brat/tag/brat_config/data/.unit_0/0.txt" = false ∧
  s3 (snd (add_allocation "A" registered_A))
    !! "bucket/brat/tag/brat_config/data/.unit_0/0.txt"
  = s3 registered_A !! "bucket/brat/tag/brat_config/data/.unit_0/0.txt".
Proof.
  assert (Hok : fst (add_allocation "A" registered_A)
                = Ok "bucket/brat/tag/brat_config/data/.A/unit_0") by (by vm_compute).
  assert (Hout : String.prefix "bucket/brat/tag/brat_config/data/.A/unit_0"
                   "bucket/brat/tag/brat_config/data/.unit_0/0.txt" = false)
    by reflexivity.
  split; [exact Hok|]. split; [exact Hout|].
  exact (add_allocation_writes_below_directory "A" registered_A _ Hok _ Hout).
Defined.

Lemma add_allocation_delivers_content_witness :
  fst (add_allocation "A" registered_A)
  = Ok "bucket/brat/tag/brat_config/data/.A/unit_0" ∧
  s3 (snd (add_allocation "A" registered_A))
    !! "bucket/brat/tag/brat_config/data/.A/unit_0/1.txt"
  = Some "textb".
Proof.
  assert (Hok : fst (add_allocation "A" registered_A)
                = Ok "bucket/brat/tag/brat_config/data/.A/unit_0") by (by vm_compute).
  split; [exact Hok|].
  destruct (add_allocation_delivers_content "A" registered_A _ Hok)
    as (u & Hu & Hcontent).
  change "bucket/brat/tag/brat_config/data/.A/unit_0"
    with (allocation_path registered_A "A" "unit_0") in Hu.
  apply allocation_path_inj in Hu. subst u.
  assert (Hapart :
            Forall (λ k, String.prefix "bucket/brat/tag/brat_config/data/.A/unit_0" k
                         = false)
              (listing (unit_path registered_A "unit_0") registered_A))
    by (apply (bool_decide_unpack _); by vm_compute).
  assert (Hinj :
            Forall (λ k,
                      Forall (λ k',
                                replace k (unit_path registered_A "unit_0")
                                  "bucket/brat/tag/brat_config/data/.A/unit_0"
                                = replace k' (unit_path registered_A "unit_0")
                                    "bucket/brat/tag/brat_config/data/.A/unit_0"
                                → k = k')
                        (listing (unit_path registered_A "unit_0") registered_A))
              (listing (unit_path registered_A "unit_0") registered_A))
    by (apply (bool_decide_unpack _); by vm_compute).
  destruct (Hcontent
              (λ k Hk, proj1 (Forall_forall _ _) Hapart k Hk)
              (λ k k' Hk Hk',
                 proj1 (Forall_forall _ _) (proj1 (Forall_forall _ _) Hinj k Hk) k' Hk')
              "bucket/brat/tag/brat_config/data/.unit_0/1.txt"
              ltac:(apply (bool_decide_unpack _); by vm_compute))
    as (_ & Hdest & _).
  etrans; [|etrans; [exact Hdest|]]; by vm_compute.
Defined.

Lemma start_writes_postings_witness :
  Batch (Sample.postings sample5) 2 !! 2%nat = Some [posting "e"] ∧
  [posting "e"] !! 0%nat = Some (posting "e") ∧
  s3 started5 !! "bucket/brat/tag/brat_config/data/.unit_2/0.txt" = Some "texte" ∧
  s3 started5 !! "bucket/brat/tag/brat_config/data/.unit_2/0.ann" = Some "".
Proof.
  assert (Hb : Batch (Sample.postings sample5) 2 !! 2%nat = Some [posting "e"])
    by reflexivity.
  assert (Hp : [posting "e"] !! 0%nat = Some (posting "e")) by reflexivity.
  split; [exact Hb|]. split; [exact Hp|].
  exact (start_writes_postings sample5 [("c", "Competency")] 2 2 fresh
           2 0 [posting "e"] (posting "e") Hb Hp).
Defined.

Lemma start_writes_below_config_path_witness :
  String.prefix (brat_config_path allocated_A) "bucket/other/file" = false ∧
  s3 (snd (start sample0 [] 1 1 allocated_A)) !! "bucket/other/file"
  = s3 allocated_A !! "bucket/other/file".
Proof.
  assert (Hout : String.prefix (brat_config_path allocated_A) "bucket/other/file" = false)
    by reflexivity.
  split; [exact Hout|].
  exact (start_writes_below_config_path sample0 [] 1 1 allocated_A _ Hout).
Defined.

(** A user named unit_1 is given unit_0, and the copies land among the
    files of unit_1. *)
Lemma add_allocation_files_in_directory_witness :
  fst (add_allocation "unit_1" registered_unit_1)
  = Ok "bucket/brat/tag/brat_config/data/.unit_1/unit_0" ∧
  is_Some (s3 (snd (add_allocation "unit_1" registered_unit_1))
             !! "bucket/brat/tag/brat_config/data/.unit_1/unit_0/0.txt") ∧
  under (unit_path registered_unit_1 "unit_1")
    "bucket/brat/tag/brat_config/data/.unit_1/unit_0/0.txt".
Proof.
  assert (Hok : fst (add_allocation "unit_1" registered_unit_1)
                = Ok "bucket/brat/tag/brat_config/data/.unit_1/unit_0")
    by (by vm_compute).
  split; [exact Hok|].
  destruct (add_allocation_files_in_directory "unit_1" registered_unit_1 _ Hok)
    as (u & Hu & Hfiles).
  change "bucket/brat/tag/brat_config/data/.unit_1/unit_0"
    with (allocation_path registered_unit_1 "unit_1" "unit_0") in Hu.
  apply allocation_path_inj in Hu. subst u.
  destruct (Hfiles "bucket/brat/tag/brat_config/data/.unit_0/0.txt"
              ltac:(apply (bool_decide_unpack _); by vm_compute))
    as (Hpresent & _ & _ & Hunit).
  split; [exact Hpresent | exact Hunit].
Defined.

(** ** One history per call, and reopening after [start] *)

(** X19.  [add_allocation] changes the history of the calling user only,
    and only when it succeeds: the history of every other worker is after
    the call what it was before, and so is the caller's when the call
    raises. *)
Theorem add_allocation_touches_one_history user_name worker e :
  (user_name ≠ worker →
   history worker (snd (add_allocation user_name e)) = history worker e) ∧
  (∀ x, fst (add_allocation user_name e) = Raise x →
        history worker (snd (add_allocation user_name e)) = history worker e).
Proof.
  destruct (add_allocation_outcome user_name e)
    as [->|[(_ & x & ->)|(_ & u & _ & _ & ->)]]; cbn [fst snd].
  - done.
  - split; intros; apply history_prepared_any.
  - split; [|done]. intros Hne.
    by rewrite history_delivered_ne, history_prepared_any.
Qed.

(** X20.  What [start] leaves is durable: when the password store is
    saved, constructing the experiment again right after [start] gives the
    very same experiment, units and configuration included. *)
Theorem start_then_reopen sample entities minimum maximum e :
  storage (user_pw_store e) = saved (user_pw_store e) →
  reopen (snd (start sample entities minimum maximum e))
  = snd (start sample entities minimum maximum e).
Proof.
  intros Hpw. destruct (start_run sample entities minimum maximum e) as [s' ->].
  destruct e as [n p md [pw pws] s ev]. simpl in Hpw. subst pws. reflexivity.
Qed.

Lemma add_allocation_touches_one_history_witness :
  "A" ≠ "B" ∧
  fst (add_allocation "A" exhausted_A)
  = Raise (ValueError "No units left to allocate to user!") ∧
  history "B" (snd (add_allocation "A" allocated_AB)) = history "B" allocated_AB ∧
  history "A" (snd (add_allocation "A" exhausted_A)) = history "A" exhausted_A.
Proof.
  assert (Hne : "A" ≠ "B") by done.
  assert (Hraise : fst (add_allocation "A" exhausted_A)
                   = Raise (ValueError "No units left to allocate to user!"))
    by (by vm_compute).
  split; [exact Hne|]. split; [exact Hraise|]. split.
  - exact (proj1 (add_allocation_touches_one_history "A" "B" allocated_AB) Hne).
  - exact (proj2 (add_allocation_touches_one_history "A" "A" exhausted_A) _ Hraise).
Defined.

Lemma start_then_reopen_witness :
  storage (user_pw_store allocated_AB) = saved (user_pw_store allocated_AB) ∧
  reopen (snd (start sample5 [("c", "Competency")] 2 2 allocated_AB))
  = snd (start sample5 [("c", "Competency")] 2 2 allocated_AB).
Proof.
  assert (Hpw : storage (user_pw_store allocated_AB) = saved (user_pw_store allocated_AB))
    by (by vm_compute).
  split; [exact Hpw|].
  exact (start_then_reopen sample5 [("c", "Competency")] 2 2 allocated_AB Hpw).
Defined.


(** ** A registered worker before [start] *)

(** C1 as stated fails: user A is registered on an experiment that was
    never started; every unit (there is none) is in A's history, and the
    call raises [KeyError 'units'], not the "No units left" error. *)
Lemma add_allocation_unstarted_not_exhausted :
  registered "A" unstarted_A ∧
  Forall (λ v, v ∈ history "A" unstarted_A) (unit_names unstarted_A) ∧
  fst (add_allocation "A" unstarted_A) = Raise (KeyError "units") ∧
  fst (add_allocation "A" unstarted_A)
  ≠ Raise (ValueError "No units left to allocate to user!").
Proof.
  split; [apply (bool_decide_unpack _); by vm_compute|].
  split; [apply (bool_decide_unpack _); by vm_compute|].
  split; [by vm_compute|]. vm_compute. discriminate.
Qed.

(** C4 as stated fails: for the same registered user the call neither
    advances the user to a new unit nor raises the "No units left" error. *)
Lemma add_allocation_unstarted_neither :
  registered "A" unstarted_A ∧
  ¬ ((∃ u, (u ∉ history "A" unstarted_A) ∧
           fst (add_allocation "A" unstarted_A)
           = Ok (allocation_path unstarted_A "A" u))
     ∨ fst (add_allocation "A" unstarted_A)
       = Raise (ValueError "No units left to allocate to user!")).
Proof.
  split; [apply (bool_decide_unpack _); by vm_compute|].
  assert (Hrun : fst (add_allocation "A" unstarted_A) = Raise (KeyError "units"))
    by (by vm_compute).
  rewrite Hrun. intros [(u & _ & Hok)|Hraise]; discriminate.
Qed.

(** ** Started experiments among the reachable ones *)

Section Reachable.
Implicit Types (e : BratExperiment) (cs : list call).

Lemma units_imply_started_run_call c e :
  units_imply_started e → units_imply_started (run_call c e).
Proof.
  intros [Hmem Hsaved].
  destruct c as [username password|user_name|sample ents mi ma|].
  - destruct (run_call_allocation_metadata (CallAddUser username password) e I)
      as [Hconf Hsv].
    apply unit_names_configuration in Hconf as (Hn & Hmin & Hunits).
    split.
    + unfold started. rewrite Hn, Hmin, Hunits. exact Hmem.
    + unfold started, unit_names, units_of, reopen in *. simpl in *.
      rewrite Hsv. exact Hsaved.
  - destruct (run_call_allocation_metadata (CallAddAllocation user_name) e I)
      as [Hconf Hsv].
    apply unit_names_configuration in Hconf as (Hn & Hmin & Hunits).
    split.
    + unfold started. rewrite Hn, Hmin, Hunits. exact Hmem.
    + unfold started, unit_names, units_of, reopen in *. simpl in *.
      rewrite Hsv. exact Hsaved.
  - simpl. pose proof (start_started sample ents mi ma e) as Hs.
    split; [done|]. intros _.
    unfold started, unit_names, units_of, reopen in *. simpl.
    destruct (start_metadata sample ents mi ma e) as (_ & Hst & Hsv).
    rewrite Hsv. rewrite Hst in Hs. exact Hs.
  - simpl. split; [exact Hsaved|]. exact Hsaved.
Qed.

(** On every experiment reached from a new one, having units means that
    [start] has run: the experiment is [started]. *)
Lemma started_reachable cs name path :
  is_Some (md_units (storage (metadata (run_calls cs (new_experiment name path))))) →
  started (run_calls cs (new_experiment name path)).
Proof.
  assert (H : ∀ e, units_imply_started e → units_imply_started (run_calls cs e)).
  { induction cs as [|c cs IH]; intros e He; simpl; [done|].
    by apply IH, units_imply_started_run_call. }
  apply (H (new_experiment name path)).
  split; intros [? Hnone]; discriminate Hnone.
Qed.
End Reachable.
